(** * Signal synthesis, modulation and demodulation of [app.py]

    A shallow embedding of the numeric core of the oscilloscope
    application: [generate_signal], [modulate_signal],
    [demodulate_signal] and the per-channel dispatch of [main], together
    with what surrounds it: the values [channel_controls] returns, the
    timebase and the evaluation pass of [main], and the traces
    [plot_signals] draws.

    Samples are real numbers ([R]); a one-dimensional numpy array of
    floats is a [list R], and the boolean array that a comparison
    produces is a [list bool].  Python exceptions are values of
    [result]; the global random generator that "Binary Data" draws
    from is threaded explicitly as a value of [rng].  Where overflow to
    an infinity or NaN decides a property, module [Float64] has
    [modulate_signal] over float64 values. *)

From Stdlib Require Import Reals Lra Lia ZArith Bool Ascii String.
From Stdlib Require Import DecimalString.
From Stdlib Require Import List.
Import ListNotations.

Open Scope R_scope.

(** ** Exceptions *)

Inductive exn : Type :=
| ValueError   (* shapes that cannot be broadcast together; array too small *)
| IndexError.  (* index out of bounds *)

Inductive result (A : Type) : Type :=
| Ok (a : A)
| Raise (e : exn).

Arguments Ok {A} a.
Arguments Raise {A} e.

Definition bind {A B : Type} (r : result A) (k : A -> result B) : result B :=
  match r with
  | Ok a => k a
  | Raise e => Raise e
  end.

Notation "x <- r ;; k" := (bind r (fun x => k))
  (at level 61, r at next level, right associativity).

(** ** Arrays *)

Definition Waveform : Type := list R.

(** What a numpy expression over a float array evaluates to: an array of
    dtype float, or (after a comparison) an array of dtype bool. *)
Inductive ndarray : Type :=
| FloatArr (xs : list R)
| BoolArr (bs : list bool).

Definition size (a : ndarray) : nat :=
  match a with
  | FloatArr xs => length xs
  | BoolArr bs => length bs
  end.

(** The value a boolean has in arithmetic ([True] is 1, [False] is 0). *)
Definition bool_to_R (b : bool) : R := if b then 1 else 0.

(** The samples of an array as numbers, as arithmetic on it sees them. *)
Definition samples (a : ndarray) : list R :=
  match a with
  | FloatArr xs => xs
  | BoolArr bs => map bool_to_R bs
  end.

(** [x > y] on floats. *)
Definition gt_b (x y : R) : bool := if Rlt_dec y x then true else false.

Module Numpy.

Fixpoint zip_with {A B C : Type} (f : A -> B -> C)
         (xs : list A) (ys : list B) : list C :=
  match xs, ys with
  | x :: xs', y :: ys' => f x y :: zip_with f xs' ys'
  | _, _ => []
  end.

(** An elementwise binary operation on two one-dimensional arrays, with
    numpy's broadcasting: equal lengths combine pointwise, a length-one
    operand is stretched, anything else raises [ValueError]. *)
Definition broadcast2 {A B C : Type} (f : A -> B -> C)
           (xs : list A) (ys : list B) : result (list C) :=
  if Nat.eqb (length xs) (length ys) then Ok (zip_with f xs ys)
  else match xs, ys with
       | [x], _ => Ok (map (f x) ys)
       | _, [y] => Ok (map (fun x => f x y) xs)
       | _, _ => Raise ValueError
       end.

(** [c * a], [a * c], [c + a] and [a + c] for a scalar [c]. *)
Definition scale (c : R) (xs : list R) : list R := map (fun x => c * x) xs.
Definition times (xs : list R) (c : R) : list R := map (fun x => x * c) xs.
Definition plus_l (c : R) (xs : list R) : list R := map (fun x => c + x) xs.
Definition plus_r (xs : list R) (c : R) : list R := map (fun x => x + c) xs.

Definition sin (xs : list R) : list R := map Rtrigo_def.sin xs.
Definition abs (xs : list R) : list R := map Rabs xs.

Definition sign1 (x : R) : R :=
  if Rlt_dec x 0 then -1 else if Rlt_dec 0 x then 1 else 0.
Definition sign (xs : list R) : list R := map sign1 xs.

(** [a > c] for a scalar [c]. *)
Definition greater (xs : list R) (c : R) : list bool :=
  map (fun x => gt_b x c) xs.

(** [a.astype(float)] on a boolean array. *)
Definition astype_float (bs : list bool) : list R := map bool_to_R bs.

Definition zeros_like {A : Type} (xs : list A) : list R :=
  repeat 0 (length xs).

Fixpoint cumsum_from (acc : R) (xs : list R) : list R :=
  match xs with
  | [] => []
  | x :: xs' => (acc + x) :: cumsum_from (acc + x) xs'
  end.
Definition cumsum (xs : list R) : list R := cumsum_from 0 xs.

(** [a[i]]. *)
Definition item (xs : list R) (i : nat) : result R :=
  match nth_error xs i with
  | Some x => Ok x
  | None => Raise IndexError
  end.

(** [np.where(c, a, b)]: the three operands are broadcast together. *)
Definition where_ (cs : list bool) (xs ys : list R) : result (list R) :=
  xys <- broadcast2 pair xs ys ;;
  broadcast2 (fun (c : bool) (xy : R * R) => if c then fst xy else snd xy)
             cs xys.

(** [np.mod(x, p)]: the remainder has the sign of the divisor. *)
Definition mod1 (x p : R) : R := x - IZR (Int_part (x / p)) * p.

(** Complex numbers, as far as [signal + 1j*signal] needs them. *)
Definition complex : Type := (R * R)%type.
Definition of_real (x : R) : complex := (x, 0).
Definition j : complex := (0, 1).
Definition cadd (a b : complex) : complex := (fst a + fst b, snd a + snd b).
Definition cmul (a b : complex) : complex :=
  (fst a * fst b - snd a * snd b, fst a * snd b + snd a * fst b).

Definition arctan2 (y x : R) : R :=
  if Rlt_dec 0 x then atan (y / x)
  else if Rlt_dec x 0 then
         (if Rlt_dec y 0 then atan (y / x) - PI else atan (y / x) + PI)
       else if Rlt_dec 0 y then PI / 2
            else if Rlt_dec y 0 then - (PI / 2)
                 else 0.

Definition angle (zs : list complex) : list R :=
  map (fun z => arctan2 (snd z) (fst z)) zs.

(** [np.diff]: [a[1:] - a[:-1]]. *)
Definition diff (xs : list R) : list R :=
  zip_with (fun a b => b - a) xs (tl xs).

(** One phase correction of [np.unwrap] (period [2*pi], discontinuity
    threshold [pi]), from one difference [dd]. *)
Definition ph_correct (dd : R) : R :=
  let period := 2 * PI in
  let interval_high := period / 2 in
  let interval_low := - interval_high in
  let ddmod0 := mod1 (dd - interval_low) period + interval_low in
  let ddmod :=
    if andb (if Req_dec_T ddmod0 interval_low then true else false)
            (gt_b dd 0)
    then interval_high else ddmod0 in
  if Rlt_dec (Rabs dd) (period / 2) then 0 else ddmod - dd.

Definition unwrap (p : list R) : list R :=
  match p with
  | [] => []
  | p0 :: rest =>
      p0 :: zip_with Rplus rest (cumsum (map ph_correct (diff p)))
  end.

(** The interior of [np.gradient] with unit spacing: central differences. *)
Fixpoint gradient_interior (f : list R) : list R :=
  match f with
  | a :: r =>
      match r with
      | _ :: c :: _ => (c - a) / (2 * 1) :: gradient_interior r
      | _ => []
      end
  | [] => []
  end.

(** [np.gradient(f)] for a one-dimensional [f]: one-sided differences at
    both ends; fewer than two samples raise [ValueError]. *)
Definition gradient (f : list R) : result (list R) :=
  match f with
  | f0 :: f1 :: _ =>
      let n := length f in
      Ok ((f1 - f0) / 1
            :: gradient_interior f
            ++ [(nth (n - 1) f 0 - nth (n - 2) f 0) / 1])
  | _ => Raise ValueError
  end.

End Numpy.

(** ** The global random generator *)

(** The state of numpy's global generator: the sequence of numbers it is
    going to return, and how many of them have been drawn. *)
Record rng : Type := mkRng { tape : nat -> R; cursor : nat }.

(** [np.random.random()]. *)
Definition np_random_random (g : rng) : R * rng :=
  (tape g (cursor g), mkRng (tape g) (S (cursor g))).

(** ** scipy.signal *)

Module Scipy.

(** [signal.square(x, duty)] at one sample, for a duty cycle in [0,1]
    (the only one used here is 0.5): 1 on the first [duty] part of each
    period of [2*pi], -1 on the rest. *)
Definition square1 (duty x : R) : R :=
  if Rlt_dec (Numpy.mod1 x (2 * PI)) (duty * (2 * PI)) then 1 else -1.

(** The default of the [duty] parameter. *)
Definition square_default_duty : R := 0.5.

Definition square (xs : list R) (duty : R) : list R :=
  map (square1 duty) xs.

(** [signal.sawtooth(x, width)] at one sample, for a width in [0,1]:
    rises from -1 to 1 on the first [width] part of the period and falls
    back on the rest. *)
Definition sawtooth1 (width x : R) : R :=
  let tmod := Numpy.mod1 x (2 * PI) in
  if Rlt_dec tmod (width * (2 * PI))
  then tmod / (PI * width) - 1
  else (PI * (width + 1) - tmod) / (PI * (1 - width)).

Definition sawtooth (xs : list R) (width : R) : list R :=
  map (sawtooth1 width) xs.

End Scipy.

(** ** Signal generators *)

(** The list comprehension of "Binary Data":
    [[1 if np.random.random() > 0.5 else 0 for _ in range(n)]]. *)
Fixpoint random_bits (n : nat) (g : rng) : list Z * rng :=
  match n with
  | O => ([], g)
  | S n' =>
      let (u, g1) := np_random_random g in
      let (bs, g2) := random_bits n' g1 in
      ((if gt_b u 0.5 then 1 else 0)%Z :: bs, g2)
  end.

Definition generate_signal (signal_type : string) (t : Waveform)
           (amplitude frequency offset : R) (g : rng) : Waveform * rng :=
  let arg := Numpy.scale (2 * PI * frequency) t in
  let out (w : list R) := Numpy.plus_r (Numpy.scale amplitude w) offset in
  if (signal_type =? "Sine Wave")%string then
    (out (Numpy.sin arg), g)
  else if (signal_type =? "Square Wave")%string then
    (out (Scipy.square arg Scipy.square_default_duty), g)
  else if (signal_type =? "Triangle Wave")%string then
    (out (Scipy.sawtooth arg 0.5), g)
  else if (signal_type =? "Clock Pulse")%string then
    (out (Scipy.square arg 0.5), g)
  else if (signal_type =? "Binary Data")%string then
    let (bits, g') := random_bits (length t) g in
    (out (map IZR bits), g')
  else if (signal_type =? "Carrier Wave")%string then
    (out (Numpy.sin arg), g)
  else
    (Numpy.zeros_like t, g).

(** ** Modulation *)

Definition modulate_signal (carrier_freq : R) (message_signal t : Waveform)
           (mod_type : string) (mod_index : R) : result Waveform :=
  let carrier := Numpy.sin (Numpy.scale (2 * PI * carrier_freq) t) in
  if (mod_type =? "AM")%string then
    Numpy.broadcast2 Rmult
      (Numpy.plus_l 1 (Numpy.scale mod_index message_signal)) carrier
  else if (mod_type =? "FM")%string then
    t1 <- Numpy.item t 1 ;;
    t0 <- Numpy.item t 0 ;;
    let integrated_signal :=
      Numpy.times (Numpy.cumsum message_signal) (t1 - t0) in
    phase <- Numpy.broadcast2 Rplus
               (Numpy.scale (2 * PI * carrier_freq) t)
               (Numpy.scale mod_index integrated_signal) ;;
    Ok (Numpy.sin phase)
  else if (mod_type =? "PM")%string then
    phase <- Numpy.broadcast2 Rplus
               (Numpy.scale (2 * PI * carrier_freq) t)
               (Numpy.scale mod_index message_signal) ;;
    Ok (Numpy.sin phase)
  else if (mod_type =? "ASK")%string then
    Numpy.broadcast2 Rmult carrier
      (Numpy.plus_r
         (Numpy.times (Numpy.astype_float (Numpy.greater message_signal 0))
                      0.5)
         0.5)
  else if (mod_type =? "FSK")%string then
    Numpy.where_ (Numpy.greater message_signal 0)
                 (Numpy.sin (Numpy.scale (2 * PI * carrier_freq * 1.5) t))
                 (Numpy.sin (Numpy.scale (2 * PI * carrier_freq) t))
  else if (mod_type =? "PSK")%string then
    Numpy.broadcast2 Rmult carrier (Numpy.sign message_signal)
  else
    Ok (Numpy.zeros_like t).

(** ** Simple demodulation (envelope and threshold based) *)

Definition demodulate_signal (signal : Waveform) (mod_type : string)
  : result ndarray :=
  if (mod_type =? "AM")%string then
    Ok (FloatArr (Numpy.abs signal))
  else if ((mod_type =? "FM") || (mod_type =? "PM"))%string then
    let analytic :=
      map (fun s => Numpy.cadd (Numpy.of_real s)
                               (Numpy.cmul Numpy.j (Numpy.of_real s)))
          signal in
    d <- Numpy.gradient (Numpy.unwrap (Numpy.angle analytic)) ;;
    Ok (FloatArr d)
  else if (mod_type =? "ASK")%string then
    Ok (BoolArr (Numpy.greater signal 0.1))
  else if ((mod_type =? "PSK") || (mod_type =? "FSK"))%string then
    Ok (FloatArr (Numpy.astype_float (Numpy.greater signal 0)))
  else
    Ok (FloatArr (Numpy.zeros_like signal)).

(** ** Channel evaluation: the body of the loop of [main] *)

(** [sub in s]. *)
Fixpoint contains (sub s : string) : bool :=
  if String.prefix sub s then true
  else match s with
       | EmptyString => false
       | String _ s' => contains sub s'
       end.

(** ASCII whitespace, as [str.split()] sees it. *)
Definition is_space (c : ascii) : bool :=
  let n := nat_of_ascii c in
  ((9 <=? n) && (n <=? 13) || (28 <=? n) && (n <=? 32))%nat.

Fixpoint lstrip (s : string) : string :=
  match s with
  | String c s' => if is_space c then lstrip s' else s
  | EmptyString => EmptyString
  end.

Fixpoint take_word (s : string) : string :=
  match s with
  | String c s' => if is_space c then EmptyString else String c (take_word s')
  | EmptyString => EmptyString
  end.

(** [s.split()[0]]. *)
Definition split_first (s : string) : result string :=
  match lstrip s with
  | EmptyString => Raise IndexError
  | w => Ok (take_word w)
  end.

(** One entry of [channels], as [channel_controls] returns it. *)
Record channel : Type := mkChannel {
  enabled : bool;
  signal_type : string;
  amplitude : R;
  frequency : R;
  offset : R;
  mod_index : R
}.

(** [amplitude * signal + offset], on a float or a boolean array. *)
Definition affine (amplitude : R) (signal : ndarray) (offset : R) : Waveform :=
  Numpy.plus_r (Numpy.scale amplitude (samples signal)) offset.

Definition channel_signal (t message_signal : Waveform) (carrier_freq : R)
           (ch : channel) (g : rng) : result Waveform * rng :=
  let ty := signal_type ch in
  if contains "Message Signal" ty then
    let (w, g') := generate_signal "Sine Wave" t (amplitude ch)
                                   (frequency ch) (offset ch) g in
    (Ok w, g')
  else if contains "Clock Pulse" ty then
    let (w, g') := generate_signal "Clock Pulse" t (amplitude ch)
                                   (frequency ch) (offset ch) g in
    (Ok w, g')
  else if contains "Carrier Wave" ty then
    let (w, g') := generate_signal "Carrier Wave" t (amplitude ch)
                                   carrier_freq (offset ch) g in
    (Ok w, g')
  else if contains "Modulated" ty then
    (mod_type <- split_first ty ;;
     signal <- modulate_signal carrier_freq message_signal t mod_type
                               (mod_index ch) ;;
     Ok (affine (amplitude ch) (FloatArr signal) (offset ch)),
     g)
  else if contains "Demodulated" ty then
    (mod_type <- split_first ty ;;
     modulated <- modulate_signal carrier_freq message_signal t mod_type
                                  (mod_index ch) ;;
     signal <- demodulate_signal modulated mod_type ;;
     Ok (affine (amplitude ch) signal (offset ch)),
     g)
  else
    (Ok (Numpy.zeros_like t), g).

(** ** The names the dispatchers recognise *)

(** The schemes [modulate_signal] and [demodulate_signal] have a branch
    for. *)
Definition schemes : list string := ["AM"; "FM"; "PM"; "ASK"; "FSK"; "PSK"]%string.

Definition is_scheme (s : string) : bool := existsb (String.eqb s) schemes.

(** The whole-array form of [sin(2*pi*fc*t)]. *)
Definition carrier_wave (fc : R) (t : Waveform) : Waveform :=
  map (fun ti => Rtrigo_def.sin (2 * PI * fc * ti)) t.

(** A generator whose next [n] numbers are 1 and all later ones 0. *)
Definition ones_then_zeros (n : nat) : rng :=
  mkRng (fun i => if (i <? n)%nat then 1 else 0) 0.

(** ** The timebase of [main] *)

(** Replace the last element of a non-empty array: [y[-1] = v]. *)
Fixpoint set_last (y : list R) (v : R) : list R :=
  match y with
  | [] => []
  | [_] => [v]
  | x :: y' => x :: set_last y' v
  end.

(** [np.linspace(start, stop, num)], end point included: [arange(num)]
    scaled by the step and shifted by [start], with the last sample set
    to [stop]. *)
Definition linspace (start stop : R) (num : nat) : list R :=
  let div := (num - 1)%nat in
  let delta := stop - start in
  let y := map INR (seq 0 num) in
  let y :=
    if (0 <? div)%nat then
      let step := delta / INR div in
      if Req_dec_T step 0
      then Numpy.times (map (fun v => v / INR div) y) delta
      else Numpy.times y step
    else Numpy.times y delta in
  let y := Numpy.plus_r y start in
  if (1 <? num)%nat then set_last y stop else y.

(** [t = np.linspace(0, 10, 10000)]. *)
Definition main_timebase : Waveform := linspace 0 10 10000.

(** ** Controls *)

Definition mod_signal_options : list string :=
  ["Message Signal"; "Clock Pulse"; "Carrier Wave";
   "AM Modulated"; "FM Modulated"; "PM Modulated";
   "ASK Modulated"; "PSK Modulated"; "FSK Modulated"]%string.

Definition demod_signal_options : list string :=
  ["AM Demodulated"; "FM Demodulated"; "PM Demodulated";
   "ASK Demodulated"; "PSK Demodulated"; "FSK Demodulated"]%string.

(** What the widgets of one channel panel return: the checkbox, the two
    select boxes, the radio button and the sliders.  [w_mod] is the value
    of the "Modulation Index" slider, which is only shown (and read) when
    the final signal type asks for it. *)
Record widgets : Type := mkWidgets {
  w_enabled : bool;
  w_mod_signal : string;
  w_demod_signal : string;
  w_source : string;
  w_amp : R;
  w_freq : R;
  w_offset : R;
  w_mod : R
}.

(** The values the widgets can return: an option of each select box and
    of the radio button, and a slider position within its bounds. *)
Definition widgets_in_range (u : widgets) : Prop :=
  In (w_mod_signal u) mod_signal_options /\
  In (w_demod_signal u) demod_signal_options /\
  In (w_source u) ["Modulation"; "Demodulation"]%string /\
  0.0 <= w_amp u <= 2.0 /\
  0.1 <= w_freq u <= 10.0 /\
  -2.0 <= w_offset u <= 2.0 /\
  0.0 <= w_mod u <= 5.0.

(** [channel_controls]: the tuple it returns, from what its widgets
    return (the channel number and the key prefix only label them). *)
Definition channel_controls (u : widgets) : channel :=
  let final_signal_type :=
    if (w_source u =? "Demodulation")%string
    then w_demod_signal u else w_mod_signal u in
  let mod_index :=
    if contains "AM" final_signal_type && contains "Modulated" final_signal_type
    then w_mod u else 1.0 in
  mkChannel (w_enabled u) final_signal_type
            (w_amp u) (w_freq u) (w_offset u) mod_index.

(** ** The evaluation pass of [main] *)

(** [f"CH{i+1}: {signal_type}"]. *)
Definition channel_name (i : nat) (ty : string) : string :=
  ("CH" ++ NilZero.string_of_uint (Nat.to_uint (i + 1)) ++ ": " ++ ty)%string.

(** The loop over [enumerate(channels)], appending to [signals], [names]
    and [visible]; an exception leaves the loop (and [main]). *)
Fixpoint main_loop (t message_signal : Waveform) (carrier_freq : R)
         (i : nat) (channels : list channel)
         (signals : list Waveform) (names : list string) (visible : list bool)
         (g : rng)
  : result (list Waveform * list string * list bool) * rng :=
  match channels with
  | [] => (Ok (signals, names, visible), g)
  | ch :: rest =>
      match channel_signal t message_signal carrier_freq ch g with
      | (Ok signal, g') =>
          main_loop t message_signal carrier_freq (S i) rest
                    (signals ++ [signal])
                    (names ++ [channel_name i (signal_type ch)])
                    (visible ++ [enabled ch]) g'
      | (Raise e, g') => (Raise e, g')
      end
  end.

(** [main] from the widgets' values to the lists handed to
    [plot_signals]. *)
Definition main_signals (t : Waveform) (carrier_freq : R)
           (channels : list channel) (g : rng)
  : result (list Waveform * list string * list bool) * rng :=
  let (message_signal, g1) := generate_signal "Sine Wave" t 1.0 1.0 0.0 g in
  let (carrier, g2) :=
    generate_signal "Carrier Wave" t 1.0 carrier_freq 0.0 g1 in
  main_loop t message_signal carrier_freq 0 channels [] [] [] g2.

(** ** Plot *)

(** One [go.Scatter] trace. *)
Record trace : Type := mkTrace {
  trace_x : Waveform;
  trace_y : Waveform;
  trace_name : string;
  trace_color : string
}.

Definition colors : list string := ["yellow"; "cyan"; "magenta"]%string.

(** The traces [plot_signals] adds to the figure: one per visible entry
    of [zip(signals, colors, names, visible)]. *)
Fixpoint plot_signals (t : Waveform) (signals : list Waveform)
         (colors names : list string) (visible : list bool) : list trace :=
  match signals, colors, names, visible with
  | signal :: ss, color :: cs, name :: ns, is_visible :: vs =>
      if is_visible
      then mkTrace t signal name color :: plot_signals t ss cs ns vs
      else plot_signals t ss cs ns vs
  | _, _, _, _ => []
  end.

(** The signal types [generate_signal] has a formula for. *)
Definition kinds : list string :=
  ["Sine Wave"; "Square Wave"; "Triangle Wave"; "Clock Pulse";
   "Binary Data"; "Carrier Wave"]%string.

Definition is_kind (s : string) : bool := existsb (String.eqb s) kinds.

(** ** Modulation over float64 values *)

(** The definitions above compute with exact real numbers.  A float64
    can also be an infinity or NaN, and an operation on finite floats
    overflows to an infinity when its result is beyond the largest
    finite float.  This module has [modulate_signal] once more, over
    such values.  Rounding inside the finite range is not modelled: a
    finite result is the exact one. *)
Module Float64.

Inductive float : Type :=
| Finite (x : R)
| PosInf
| NegInf
| NaN.

(** The largest finite float64, [(2 - 2^-52) * 2^1023]. *)
Definition max_float_Z : Z := Eval cbv in (2 ^ 1024 - 2 ^ 971)%Z.
Definition max_float : R := IZR max_float_Z.

(** The float an exact result becomes. *)
Definition of_real (r : R) : float :=
  if Rlt_dec max_float r then PosInf
  else if Rlt_dec r (- max_float) then NegInf
  else Finite r.

(** The product with an infinity: its sign follows the signs of the
    factors, and [inf * 0] is NaN. *)
Definition mul (a b : float) : float :=
  match a, b with
  | NaN, _ => NaN
  | _, NaN => NaN
  | Finite x, Finite y => of_real (x * y)
  | Finite x, PosInf =>
      if Rlt_dec 0 x then PosInf else if Rlt_dec x 0 then NegInf else NaN
  | PosInf, Finite x =>
      if Rlt_dec 0 x then PosInf else if Rlt_dec x 0 then NegInf else NaN
  | Finite x, NegInf =>
      if Rlt_dec 0 x then NegInf else if Rlt_dec x 0 then PosInf else NaN
  | NegInf, Finite x =>
      if Rlt_dec 0 x then NegInf else if Rlt_dec x 0 then PosInf else NaN
  | PosInf, PosInf => PosInf
  | NegInf, NegInf => PosInf
  | PosInf, NegInf => NegInf
  | NegInf, PosInf => NegInf
  end.

(** The sum: [inf + (-inf)] is NaN. *)
Definition add (a b : float) : float :=
  match a, b with
  | NaN, _ => NaN
  | _, NaN => NaN
  | Finite x, Finite y => of_real (x + y)
  | PosInf, NegInf => NaN
  | NegInf, PosInf => NaN
  | PosInf, _ => PosInf
  | _, PosInf => PosInf
  | NegInf, _ => NegInf
  | _, NegInf => NegInf
  end.

Definition opp (a : float) : float :=
  match a with
  | Finite x => Finite (- x)
  | PosInf => NegInf
  | NegInf => PosInf
  | NaN => NaN
  end.

Definition sub (a b : float) : float := add a (opp b).

(** [np.sin] at one sample: the sine of an infinity or of NaN is NaN. *)
Definition sin1 (a : float) : float :=
  match a with
  | Finite x => Finite (Rtrigo_def.sin x)
  | _ => NaN
  end.

(** [a > b]: false as soon as one side is NaN. *)
Definition gt (a b : float) : bool :=
  match a, b with
  | NaN, _ => false
  | _, NaN => false
  | Finite x, Finite y => gt_b x y
  | PosInf, PosInf => false
  | PosInf, _ => true
  | _, PosInf => false
  | NegInf, _ => false
  | _, NegInf => true
  end.

(** [np.sign] at one sample. *)
Definition sign1 (a : float) : float :=
  match a with
  | Finite x => Finite (Numpy.sign1 x)
  | PosInf => Finite 1
  | NegInf => Finite (-1)
  | NaN => NaN
  end.

Definition of_bool (b : bool) : float := Finite (bool_to_R b).

Fixpoint cumsum_from (acc : float) (xs : list float) : list float :=
  match xs with
  | [] => []
  | x :: xs' => add acc x :: cumsum_from (add acc x) xs'
  end.

(** [np.cumsum]: the first sample, then the running sums. *)
Definition cumsum (xs : list float) : list float :=
  match xs with
  | [] => []
  | x :: xs' => x :: cumsum_from x xs'
  end.

Definition item (xs : list float) (i : nat) : result float :=
  match nth_error xs i with
  | Some x => Ok x
  | None => Raise IndexError
  end.

Definition where_ (cs : list bool) (xs ys : list float)
  : result (list float) :=
  xys <- Numpy.broadcast2 pair xs ys ;;
  Numpy.broadcast2
    (fun (c : bool) (xy : float * float) => if c then fst xy else snd xy)
    cs xys.

Definition modulate_signal (carrier_freq : float)
           (message_signal t : list float)
           (mod_type : string) (mod_index : float) : result (list float) :=
  let two_pi_fc := mul (mul (Finite 2) (Finite PI)) carrier_freq in
  let carrier := map sin1 (map (mul two_pi_fc) t) in
  if (mod_type =? "AM")%string then
    Numpy.broadcast2 mul
      (map (add (Finite 1)) (map (mul mod_index) message_signal)) carrier
  else if (mod_type =? "FM")%string then
    t1 <- item t 1 ;;
    t0 <- item t 0 ;;
    let integrated_signal :=
      map (fun c => mul c (sub t1 t0)) (cumsum message_signal) in
    phase <- Numpy.broadcast2 add
               (map (mul two_pi_fc) t)
               (map (mul mod_index) integrated_signal) ;;
    Ok (map sin1 phase)
  else if (mod_type =? "PM")%string then
    phase <- Numpy.broadcast2 add
               (map (mul two_pi_fc) t)
               (map (mul mod_index) message_signal) ;;
    Ok (map sin1 phase)
  else if (mod_type =? "ASK")%string then
    Numpy.broadcast2 mul carrier
      (map (fun m => add (mul (of_bool (gt m (Finite 0))) (Finite 0.5))
                         (Finite 0.5))
           message_signal)
  else if (mod_type =? "FSK")%string then
    where_ (map (fun m => gt m (Finite 0)) message_signal)
           (map sin1 (map (mul (mul two_pi_fc (Finite 1.5))) t))
           (map sin1 (map (mul two_pi_fc) t))
  else if (mod_type =? "PSK")%string then
    Numpy.broadcast2 mul carrier (map sign1 message_signal)
  else
    Ok (map (fun _ => Finite 0) t).


End Float64.

(** ** Basic facts about the array operations *)

Section ArrayFacts.

Context {A B C : Type}.
Variable f : A -> B -> C.

Lemma zip_with_length (xs : list A) (ys : list B) :
  length xs = length ys -> length (Numpy.zip_with f xs ys) = length xs.
Proof.
  revert ys; induction xs as [|x xs IH]; intros [|y ys] H; simpl in *;
    try discriminate; auto.
Qed.

Lemma broadcast2_same_length (xs : list A) (ys : list B) :
  length xs = length ys ->
  Numpy.broadcast2 f xs ys = Ok (Numpy.zip_with f xs ys).
Proof.
  intros H. unfold Numpy.broadcast2.
  rewrite H, Nat.eqb_refl. reflexivity.
Qed.

Lemma zip_with_Forall (PA : A -> Prop) (PB : B -> Prop) (P : C -> Prop)
      (xs : list A) (ys : list B) :
  (forall x y, PA x -> PB y -> P (f x y)) ->
  Forall PA xs -> Forall PB ys -> Forall P (Numpy.zip_with f xs ys).
Proof.
  intros HP Hxs. revert ys.
  induction Hxs as [|x xs Hx Hxs IH]; intros ys Hys; simpl; auto.
  destruct Hys as [|y ys Hy Hys]; constructor; auto.
Qed.


End ArrayFacts.

Lemma cumsum_from_length acc xs :
  length (Numpy.cumsum_from acc xs) = length xs.
Proof. revert acc; induction xs; intros; simpl; auto. Qed.

Lemma gradient_interior_length f :
  length (Numpy.gradient_interior f) = (length f - 2)%nat.
Proof.
  induction f as [|a r IH]; simpl; auto.
  destruct r as [|b [|c r']]; simpl in *; auto.
  rewrite IH. lia.
Qed.

Lemma gradient_length f d :
  Numpy.gradient f = Ok d -> length d = length f.
Proof.
  unfold Numpy.gradient.
  destruct f as [|f0 [|f1 r]]; try discriminate.
  intros [= <-].
  pose proof (gradient_interior_length (f0 :: f1 :: r)) as H.
  simpl in H |- *. rewrite length_app. simpl. lia.
Qed.

Lemma gradient_total f :
  (2 <= length f)%nat -> exists d, Numpy.gradient f = Ok d.
Proof.
  destruct f as [|f0 [|f1 r]]; simpl; try lia. eauto.
Qed.

Lemma unwrap_length p : length (Numpy.unwrap p) = length p.
Proof.
  destruct p as [|p0 rest]; simpl; auto. f_equal.
  rewrite zip_with_length; auto.
  unfold Numpy.cumsum. rewrite cumsum_from_length, length_map.
  unfold Numpy.diff. simpl.
  clear. revert p0. induction rest as [|x r IH]; intros; simpl; auto.
Qed.

Lemma random_bits_length n g : length (fst (random_bits n g)) = n.
Proof.
  revert g; induction n as [|n IH]; intros g; simpl; auto.
  specialize (IH (mkRng (tape g) (S (cursor g)))).
  destruct (random_bits n _); simpl in *. now rewrite IH.
Qed.

Lemma random_bits_state n g :
  snd (random_bits n g) = mkRng (tape g) (cursor g + n).
Proof.
  revert g; induction n as [|n IH]; intros [tp c]; simpl.
  - now rewrite Nat.add_0_r.
  - specialize (IH (mkRng tp (S c))).
    destruct (random_bits n _); simpl in *. rewrite IH. f_equal. lia.
Qed.

Lemma gt_b_true x y : gt_b x y = true <-> x > y.
Proof.
  unfold gt_b. destruct (Rlt_dec y x); split; intros; auto; try discriminate;
    try contradiction.
Qed.

Lemma gt_b_false x y : gt_b x y = false <-> x <= y.
Proof.
  unfold gt_b. destruct (Rlt_dec y x); split; intros; auto; try discriminate;
    lra.
Qed.

Lemma is_scheme_false s :
  is_scheme s = false ->
  (s =? "AM")%string = false /\ (s =? "FM")%string = false /\
  (s =? "PM")%string = false /\ (s =? "ASK")%string = false /\
  (s =? "FSK")%string = false /\ (s =? "PSK")%string = false.
Proof.
  unfold is_scheme, schemes. simpl.
  repeat (destruct (String.eqb s _); simpl; try discriminate).
  intros _. repeat split.
Qed.

(** ** Lengths *)

Lemma generate_signal_length ty t a f o g :
  length (fst (generate_signal ty t a f o g)) = length t.
Proof.
  unfold generate_signal, Numpy.plus_r, Numpy.scale, Numpy.sin,
    Scipy.square, Scipy.sawtooth, Numpy.zeros_like.
  repeat match goal with
         | |- context [String.eqb ty ?s] => destruct (String.eqb ty s)
         end;
    try (pose proof (random_bits_length (length t) g) as Hb;
         destruct (random_bits (length t) g) as [bits g']; simpl in Hb);
    simpl; rewrite ?length_map, ?repeat_length; auto.
Qed.

Lemma demodulate_signal_size w s out :
  demodulate_signal w s = Ok out -> size out = length w.
Proof.
  unfold demodulate_signal, Numpy.abs, Numpy.astype_float, Numpy.greater,
    Numpy.zeros_like.
  destruct (String.eqb s "AM").
  { intros [= <-]. simpl. now rewrite length_map. }
  destruct (String.eqb s "FM" || String.eqb s "PM")%bool.
  { destruct (Numpy.gradient _) as [d|e] eqn:E; simpl; try discriminate.
    intros [= <-]. simpl. apply gradient_length in E.
    rewrite E, unwrap_length. unfold Numpy.angle.
    now rewrite !length_map. }
  destruct (String.eqb s "ASK").
  { intros [= <-]. simpl. now rewrite length_map. }
  destruct (String.eqb s "PSK" || String.eqb s "FSK")%bool;
    intros [= <-]; simpl; now rewrite ?length_map, ?repeat_length.
Qed.

Lemma demodulate_signal_total w s :
  (2 <= length w)%nat -> exists out, demodulate_signal w s = Ok out.
Proof.
  intros Hw. unfold demodulate_signal.
  destruct (String.eqb s "AM"); eauto.
  destruct (String.eqb s "FM" || String.eqb s "PM")%bool.
  { destruct (gradient_total
                (Numpy.unwrap
                   (Numpy.angle
                      (map (fun x => Numpy.cadd (Numpy.of_real x)
                                       (Numpy.cmul Numpy.j (Numpy.of_real x)))
                           w)))) as [d Hd].
    - rewrite unwrap_length. unfold Numpy.angle. now rewrite !length_map.
    - rewrite Hd. simpl. eauto. }
  destruct (String.eqb s "ASK"); eauto.
  destruct (String.eqb s "PSK" || String.eqb s "FSK")%bool; eauto.
Qed.

(** C5.  On a timebase [t] (at least two instants) [generate_signal]
    returns, for every kind, exactly [len(t)] samples; and on a waveform
    [w] (one sample per instant of such a timebase) [demodulate_signal]
    returns, for every scheme, an array of exactly [len(w)] samples. *)
Theorem lengths_preserved :
  forall (kind scheme : string) (t w : Waveform) (a f o : R) (g : rng),
    (2 <= length t)%nat ->
    (2 <= length w)%nat ->
    length (fst (generate_signal kind t a f o g)) = length t /\
    exists out, demodulate_signal w scheme = Ok out /\ size out = length w.
Proof.
  intros kind scheme t w a f o g _ Hw. split.
  - apply generate_signal_length.
  - destruct (demodulate_signal_total w scheme Hw) as [out Hout].
    exists out. split; [exact Hout|].
    eapply demodulate_signal_size; eauto.
Qed.

Lemma lengths_preserved_witness :
  length (fst (generate_signal "Triangle Wave" [0; 1] 1 1 0
                               (mkRng (fun _ => 0) 0))) = 2%nat /\
  exists out, demodulate_signal [0; 1] "FM" = Ok out /\ size out = 2%nat.
Proof.
  apply (lengths_preserved "Triangle Wave" "FM" [0; 1] [0; 1] 1 1 0
                           (mkRng (fun _ => 0) 0)); simpl; lia.
Defined.

(** ** Unknown schemes *)

(** C4.  For a scheme that is none of AM, FM, PM, ASK, FSK, PSK,
    [modulate_signal] returns (does not raise) [len(t)] zeros whatever
    the message is, and [demodulate_signal] returns [len(signal)]
    zeros. *)
Theorem unknown_scheme_zeros :
  forall (s : string) (fc k : R) (msg t w : Waveform),
    is_scheme s = false ->
    modulate_signal fc msg t s k = Ok (repeat 0 (length t)) /\
    demodulate_signal w s = Ok (FloatArr (repeat 0 (length w))).
Proof.
  intros s fc k msg t w Hs.
  destruct (is_scheme_false s Hs) as (H1 & H2 & H3 & H4 & H5 & H6).
  unfold modulate_signal, demodulate_signal.
  rewrite H1, H2, H3, H4, H5, H6. simpl. split; reflexivity.
Qed.

Lemma unknown_scheme_zeros_witness :
  modulate_signal 10 [1] [0; 1; 2] "QAM" 1 = Ok [0; 0; 0] /\
  demodulate_signal [5; 6] "QAM" = Ok (FloatArr [0; 0]).
Proof.
  apply (unknown_scheme_zeros "QAM" 10 1 [1] [0; 1; 2] [5; 6]).
  reflexivity.
Defined.

(** ** Clock pulse and square wave *)

(** C8.  "Clock Pulse" and "Square Wave" are two names for one formula:
    [signal.square] with its default duty cycle is [signal.square] with
    [duty=0.5], so the two waveforms (and the generator state left
    behind) are equal, sample by sample
    [amplitude*square(2*pi*frequency*t) + offset] at 50% duty. *)
Theorem clock_pulse_is_square :
  forall (t : Waveform) (a f o : R) (g : rng),
    generate_signal "Clock Pulse" t a f o g =
      generate_signal "Square Wave" t a f o g /\
    fst (generate_signal "Clock Pulse" t a f o g) =
      map (fun ti => a * Scipy.square1 0.5 (2 * PI * f * ti) + o) t.
Proof.
  intros. split.
  - unfold generate_signal. cbn [String.eqb Ascii.eqb Bool.eqb].
    reflexivity.
  - change (fst (generate_signal "Clock Pulse" t a f o g))
      with (Numpy.plus_r
              (Numpy.scale a (Scipy.square (Numpy.scale (2 * PI * f) t) 0.5))
              o).
    unfold Numpy.plus_r, Numpy.scale, Scipy.square. now rewrite !map_map.
Qed.

(** ** Modulation: the carrier and the per-scheme results *)

Lemma carrier_wave_eq fc t :
  Numpy.sin (Numpy.scale (2 * PI * fc) t) = carrier_wave fc t.
Proof.
  unfold Numpy.sin, Numpy.scale, carrier_wave. now rewrite map_map.
Qed.

Lemma zip_with_unit_factor (ms cs : list R) :
  length ms = length cs ->
  Numpy.zip_with Rmult (Numpy.plus_l 1 (Numpy.scale 0 ms)) cs = cs.
Proof.
  revert cs; induction ms as [|m ms IH]; intros [|c cs] H; simpl in *;
    try discriminate; auto.
  f_equal; [lra | apply IH; lia].
Qed.

(** C3.  With a message that has one sample per instant of the timebase,
    AM with modulation index 0 returns the carrier itself:
    [sin(2*pi*fc*t)] at every instant [t]. *)
Theorem am_index_zero_is_carrier :
  forall (fc : R) (msg t : Waveform),
    length msg = length t ->
    modulate_signal fc msg t "AM" 0 =
    Ok (map (fun ti => sin (2 * PI * fc * ti)) t).
Proof.
  intros fc msg t Hlen.
  change (modulate_signal fc msg t "AM" 0)
    with (Numpy.broadcast2 Rmult
            (Numpy.plus_l 1 (Numpy.scale 0 msg))
            (Numpy.sin (Numpy.scale (2 * PI * fc) t))).
  rewrite carrier_wave_eq.
  rewrite broadcast2_same_length.
  - rewrite zip_with_unit_factor; [reflexivity|].
    unfold carrier_wave. now rewrite length_map.
  - unfold Numpy.plus_l, Numpy.scale, carrier_wave.
    now rewrite !length_map.
Qed.

Lemma am_index_zero_is_carrier_witness :
  modulate_signal 10 [3; -2] [0; 1] "AM" 0 =
  Ok [sin (2 * PI * 10 * 0); sin (2 * PI * 10 * 1)].
Proof.
  apply (am_index_zero_is_carrier 10 [3; -2] [0; 1]). reflexivity.
Defined.

Lemma item_total (t : Waveform) (i : nat) :
  (i < length t)%nat -> exists x, Numpy.item t i = Ok x.
Proof.
  intros Hi. unfold Numpy.item.
  destruct (nth_error t i) eqn:E; eauto.
  apply nth_error_None in E. lia.
Qed.

(** With one message sample per instant and at least two instants, every
    branch of [modulate_signal] returns one sample per instant, whatever
    the carrier frequency, the modulation index and the scheme are. *)
Lemma modulate_signal_total fc msg t s k :
  length msg = length t -> (2 <= length t)%nat ->
  exists w, modulate_signal fc msg t s k = Ok w /\ length w = length t.
Proof.
  intros Hlen Ht. unfold modulate_signal.
  destruct (String.eqb s "AM").
  { rewrite broadcast2_same_length.
    - eexists; split; [reflexivity|].
      rewrite zip_with_length;
        unfold Numpy.plus_l, Numpy.scale, Numpy.sin; now rewrite !length_map.
    - unfold Numpy.plus_l, Numpy.scale, Numpy.sin; now rewrite !length_map. }
  destruct (String.eqb s "FM").
  { destruct (item_total t 1) as [t1 ->]; [lia|].
    destruct (item_total t 0) as [t0 ->]; [lia|]. simpl.
    rewrite broadcast2_same_length.
    - simpl. eexists; split; [reflexivity|].
      unfold Numpy.sin. rewrite length_map, zip_with_length;
        unfold Numpy.scale, Numpy.times, Numpy.cumsum;
        now rewrite !length_map, ?cumsum_from_length.
    - unfold Numpy.scale, Numpy.times, Numpy.cumsum.
      now rewrite !length_map, cumsum_from_length. }
  destruct (String.eqb s "PM").
  { rewrite broadcast2_same_length.
    - simpl. eexists; split; [reflexivity|].
      unfold Numpy.sin. rewrite length_map, zip_with_length;
        unfold Numpy.scale; now rewrite !length_map.
    - unfold Numpy.scale. now rewrite !length_map. }
  destruct (String.eqb s "ASK").
  { rewrite broadcast2_same_length.
    - eexists; split; [reflexivity|].
      rewrite zip_with_length;
        unfold Numpy.plus_r, Numpy.times, Numpy.astype_float, Numpy.greater,
          Numpy.scale, Numpy.sin; now rewrite !length_map.
    - unfold Numpy.plus_r, Numpy.times, Numpy.astype_float, Numpy.greater,
        Numpy.scale, Numpy.sin; now rewrite !length_map. }
  destruct (String.eqb s "FSK").
  { unfold Numpy.where_.
    rewrite broadcast2_same_length;
      [|unfold Numpy.scale, Numpy.sin; now rewrite !length_map].
    simpl.
    assert (Hz : length (Numpy.zip_with pair
                           (Numpy.sin (Numpy.scale (2 * PI * fc * 1.5) t))
                           (Numpy.sin (Numpy.scale (2 * PI * fc) t)))
                 = length t).
    { rewrite zip_with_length;
        unfold Numpy.scale, Numpy.sin; now rewrite !length_map. }
    rewrite broadcast2_same_length;
      [|unfold Numpy.greater; now rewrite length_map, Hz].
    eexists; split; [reflexivity|].
    rewrite zip_with_length; unfold Numpy.greater; rewrite length_map; auto.
    now rewrite Hz. }
  destruct (String.eqb s "PSK").
  { rewrite broadcast2_same_length.
    - eexists; split; [reflexivity|].
      rewrite zip_with_length;
        unfold Numpy.sign, Numpy.scale, Numpy.sin; now rewrite !length_map.
    - unfold Numpy.sign, Numpy.scale, Numpy.sin; now rewrite !length_map. }
  eexists; split; [reflexivity|].
  unfold Numpy.zeros_like. apply repeat_length.
Qed.

(** ** PSK: modulation followed by demodulation *)

Lemma zip_with_sign_positive (cs ms : list R) :
  length ms = length cs ->
  Forall (fun m => 0 < m) ms ->
  Numpy.zip_with Rmult cs (Numpy.sign ms) = cs.
Proof.
  intros Hlen Hpos. revert cs Hlen.
  induction Hpos as [|m ms Hm Hms IH]; intros [|c cs] Hlen; simpl in *;
    try discriminate; auto.
  f_equal.
  - unfold Numpy.sign1.
    destruct (Rlt_dec m 0); [lra|]. destruct (Rlt_dec 0 m); lra.
  - apply IH. lia.
Qed.

Lemma psk_modulate_positive fc k msg t :
  length msg = length t ->
  Forall (fun m => 0 < m) msg ->
  modulate_signal fc msg t "PSK" k = Ok (carrier_wave fc t).
Proof.
  intros Hlen Hpos.
  change (modulate_signal fc msg t "PSK" k)
    with (Numpy.broadcast2 Rmult
            (Numpy.sin (Numpy.scale (2 * PI * fc) t)) (Numpy.sign msg)).
  rewrite carrier_wave_eq.
  assert (Hl : length msg = length (carrier_wave fc t))
    by (unfold carrier_wave; now rewrite length_map).
  rewrite broadcast2_same_length
    by (unfold Numpy.sign; now rewrite length_map).
  now rewrite zip_with_sign_positive.
Qed.

Lemma psk_demodulate w :
  demodulate_signal w "PSK" =
  Ok (FloatArr (map (fun x => if Rlt_dec 0 x then 1 else 0) w)).
Proof.
  change (demodulate_signal w "PSK")
    with (Ok (FloatArr (Numpy.astype_float (Numpy.greater w 0)))).
  unfold Numpy.astype_float, Numpy.greater. rewrite map_map.
  do 2 f_equal. apply map_ext. intros x. unfold gt_b, bool_to_R.
  now destruct (Rlt_dec 0 x).
Qed.

Lemma psk_roundtrip_positive fc k msg t :
  length msg = length t ->
  Forall (fun m => 0 < m) msg ->
  (w <- modulate_signal fc msg t "PSK" k ;; demodulate_signal w "PSK") =
  Ok (FloatArr
        (map (fun ti => if Rlt_dec 0 (sin (2 * PI * fc * ti)) then 1 else 0)
             t)).
Proof.
  intros Hlen Hpos. rewrite psk_modulate_positive by assumption.
  simpl. rewrite psk_demodulate. unfold carrier_wave.
  now rewrite map_map.
Qed.

(** C2, as the code has it.  On an all-positive message (one sample per
    instant) PSK modulation returns the unmodified carrier
    [sin(2*pi*fc*t)], sample for sample the waveform AM returns with
    index 0, and demodulating what it returns yields 1 exactly at the
    samples of that modulated waveform that are strictly positive and 0
    at every other sample: the thresholded carrier, not the all-ones
    waveform. *)
Theorem psk_roundtrip_is_thresholded_carrier :
  forall (fc k : R) (msg t : Waveform),
    length msg = length t ->
    Forall (fun m => 0 < m) msg ->
    modulate_signal fc msg t "PSK" k =
      Ok (map (fun ti => sin (2 * PI * fc * ti)) t) /\
    modulate_signal fc msg t "PSK" k = modulate_signal fc msg t "AM" 0 /\
    (w <- modulate_signal fc msg t "PSK" k ;; demodulate_signal w "PSK") =
    (w <- modulate_signal fc msg t "PSK" k ;;
     Ok (FloatArr (map (fun x => if Rlt_dec 0 x then 1 else 0) w))).
Proof.
  intros fc k msg t Hlen Hpos.
  pose proof (psk_modulate_positive fc k msg t Hlen Hpos) as Hpsk.
  split; [exact Hpsk|]. split.
  - rewrite Hpsk.
    change (modulate_signal fc msg t "AM" 0)
      with (Numpy.broadcast2 Rmult
              (Numpy.plus_l 1 (Numpy.scale 0 msg))
              (Numpy.sin (Numpy.scale (2 * PI * fc) t))).
    rewrite carrier_wave_eq.
    rewrite broadcast2_same_length
      by (unfold Numpy.plus_l, Numpy.scale, carrier_wave;
          now rewrite !length_map).
    rewrite zip_with_unit_factor; [reflexivity|].
    unfold carrier_wave. now rewrite length_map.
  - rewrite Hpsk. cbn [bind]. apply psk_demodulate.
Qed.

Lemma psk_roundtrip_is_thresholded_carrier_witness :
  modulate_signal 1 [2; 3] [0; 1] "PSK" 1 =
    Ok [sin (2 * PI * 1 * 0); sin (2 * PI * 1 * 1)] /\
  modulate_signal 1 [2; 3] [0; 1] "PSK" 1 =
    modulate_signal 1 [2; 3] [0; 1] "AM" 0 /\
  (w <- modulate_signal 1 [2; 3] [0; 1] "PSK" 1 ;;
   demodulate_signal w "PSK") =
  (w <- modulate_signal 1 [2; 3] [0; 1] "PSK" 1 ;;
   Ok (FloatArr (map (fun x => if Rlt_dec 0 x then 1 else 0) w))).
Proof.
  apply (psk_roundtrip_is_thresholded_carrier 1 1 [2; 3] [0; 1]).
  - reflexivity.
  - repeat constructor; lra.
Defined.

(** C2 as stated fails: with carrier frequency 1, the all-positive
    message [1, 1] and the instants [1/4, 3/4], the carrier samples are
    1 and -1, and the demodulated output is [1, 0], not all ones. *)
Lemma psk_roundtrip_not_all_ones :
  Forall (fun m => 0 < m) [1; 1] /\
  (w <- modulate_signal 1 [1; 1] [1 / 4; 3 / 4] "PSK" 5 ;;
   demodulate_signal w "PSK") = Ok (FloatArr [1; 0]) /\
  (w <- modulate_signal 1 [1; 1] [1 / 4; 3 / 4] "PSK" 5 ;;
   demodulate_signal w "PSK") <> Ok (FloatArr [1; 1]).
Proof.
  assert (E : (w <- modulate_signal 1 [1; 1] [1 / 4; 3 / 4] "PSK" 5 ;;
               demodulate_signal w "PSK") = Ok (FloatArr [1; 0])).
  { rewrite psk_roundtrip_positive;
      [ | reflexivity | repeat constructor; lra ].
    simpl.
    replace (2 * PI * 1 * (1 / 4)) with (PI / 2) by lra.
    replace (2 * PI * 1 * (3 / 4)) with (3 * (PI / 2)) by lra.
    rewrite sin_PI2, sin_3PI2.
    destruct (Rlt_dec 0 1); [|lra]. destruct (Rlt_dec 0 (-1)); [lra|].
    reflexivity. }
  split; [repeat constructor; lra|]. split; [exact E|].
  rewrite E. intros [= H]. lra.
Qed.

(** ** Parameters are not validated *)

(** C1 as stated fails: a negative amplitude, a zero frequency and a
    negative carrier frequency are all accepted, and a waveform is
    returned (nothing is raised). *)
Lemma invalid_parameters_accepted :
  -1 < 0 /\ -5 <= 0 /\
  fst (generate_signal "Sine Wave" [0; 1] (-1) 0 0 (mkRng (fun _ => 0) 0)) =
    [-1 * sin (2 * PI * 0 * 0) + 0; -1 * sin (2 * PI * 0 * 1) + 0] /\
  modulate_signal (-5) [0; 0] [0; 1] "AM" 1 =
    Ok [(1 + 1 * 0) * sin (2 * PI * -5 * 0);
        (1 + 1 * 0) * sin (2 * PI * -5 * 1)] /\
  forall e, modulate_signal (-5) [0; 0] [0; 1] "AM" 1 <> Raise e.
Proof.
  assert (E : modulate_signal (-5) [0; 0] [0; 1] "AM" 1 =
              Ok [(1 + 1 * 0) * sin (2 * PI * -5 * 0);
                  (1 + 1 * 0) * sin (2 * PI * -5 * 1)])
    by reflexivity.
  repeat split; try lra; try reflexivity.
  intros e. rewrite E. discriminate.
Qed.

(** ** ASK demodulation *)

Lemma ask_demodulate w :
  demodulate_signal w "ASK" = Ok (BoolArr (map (fun x => gt_b x 0.1) w)).
Proof. reflexivity. Qed.

(** C6 on the code.  The ASK branch compares with [> 0.1] strictly (a
    sample above 0.1 is true; 0.1 itself and anything below is false)
    but returns the boolean array of the comparison as it is: the result
    is never an array of floats, whereas the PSK/FSK branch converts its
    comparison with [astype(float)]. *)
Theorem ask_demodulate_returns_booleans :
  demodulate_signal [0.2; 0.1; 0] "ASK" = Ok (BoolArr [true; false; false]) /\
  (forall xs, demodulate_signal [0.2; 0.1; 0] "ASK" <> Ok (FloatArr xs)) /\
  demodulate_signal [0.2; 0.1; 0] "PSK" = Ok (FloatArr [1; 1; 0]).
Proof.
  assert (E : demodulate_signal [0.2; 0.1; 0] "ASK" =
              Ok (BoolArr [true; false; false])).
  { rewrite ask_demodulate. simpl. unfold gt_b.
    destruct (Rlt_dec 0.1 0.2); [|lra].
    destruct (Rlt_dec 0.1 0.1); [lra|].
    destruct (Rlt_dec 0.1 0); [lra|]. reflexivity. }
  split; [exact E|]. split.
  - intros xs. rewrite E. discriminate.
  - rewrite psk_demodulate. simpl.
    destruct (Rlt_dec 0 0.2); [|lra].
    destruct (Rlt_dec 0 0.1); [|lra].
    destruct (Rlt_dec 0 0); [lra|]. reflexivity.
Qed.

(** ** Channel evaluation *)

(** C7.  A channel whose signal type contains "Carrier Wave" (and neither
    "Message Signal" nor "Clock Pulse") shows
    [amplitude*sin(2*pi*carrier_freq*t) + offset]: the carrier is
    generated with the global carrier frequency and the channel's own
    amplitude and offset, and the channel's frequency slider has no
    effect on the result. *)
Theorem carrier_channel_uses_global_frequency :
  forall (t msg : Waveform) (fc : R) (e : bool) (ty : string)
         (a f f' o k : R) (g : rng),
    contains "Message Signal" ty = false ->
    contains "Clock Pulse" ty = false ->
    contains "Carrier Wave" ty = true ->
    channel_signal t msg fc (mkChannel e ty a f o k) g =
      (Ok (fst (generate_signal "Carrier Wave" t a fc o g)), g) /\
    fst (generate_signal "Carrier Wave" t a fc o g) =
      map (fun ti => a * sin (2 * PI * fc * ti) + o) t /\
    channel_signal t msg fc (mkChannel e ty a f' o k) g =
      channel_signal t msg fc (mkChannel e ty a f o k) g.
Proof.
  intros t msg fc e ty a f f' o k g Hm Hc Hw.
  assert (Hgen : generate_signal "Carrier Wave" t a fc o g =
                 (map (fun ti => a * sin (2 * PI * fc * ti) + o) t, g)).
  { change (generate_signal "Carrier Wave" t a fc o g)
      with (Numpy.plus_r
              (Numpy.scale a (Numpy.sin (Numpy.scale (2 * PI * fc) t))) o, g).
    unfold Numpy.plus_r, Numpy.scale, Numpy.sin. now rewrite !map_map. }
  assert (Hch : forall x,
             channel_signal t msg fc (mkChannel e ty a x o k) g =
             (Ok (fst (generate_signal "Carrier Wave" t a fc o g)), g)).
  { intros x. unfold channel_signal.
    cbn [signal_type amplitude frequency offset mod_index].
    rewrite Hm, Hc, Hw, Hgen. reflexivity. }
  repeat split.
  - apply Hch.
  - now rewrite Hgen.
  - now rewrite !Hch.
Qed.

Lemma carrier_channel_uses_global_frequency_witness :
  channel_signal [0; 1] [0; 0] 10
                 (mkChannel true "Carrier Wave" 2 1 0.5 1)
                 (mkRng (fun _ => 0) 0) =
    (Ok (fst (generate_signal "Carrier Wave" [0; 1] 2 10 0.5
                              (mkRng (fun _ => 0) 0))),
     mkRng (fun _ => 0) 0) /\
  fst (generate_signal "Carrier Wave" [0; 1] 2 10 0.5
                       (mkRng (fun _ => 0) 0)) =
    [2 * sin (2 * PI * 10 * 0) + 0.5; 2 * sin (2 * PI * 10 * 1) + 0.5] /\
  channel_signal [0; 1] [0; 0] 10
                 (mkChannel true "Carrier Wave" 2 7 0.5 1)
                 (mkRng (fun _ => 0) 0) =
    channel_signal [0; 1] [0; 0] 10
                   (mkChannel true "Carrier Wave" 2 1 0.5 1)
                   (mkRng (fun _ => 0) 0).
Proof.
  apply (carrier_channel_uses_global_frequency
           [0; 1] [0; 0] 10 true "Carrier Wave" 2 1 7 0.5 1
           (mkRng (fun _ => 0) 0)); reflexivity.
Defined.

(** ** Determinism and the random generator *)

Lemma random_bits_spec n g :
  fst (random_bits n g) =
  map (fun i => if gt_b (tape g (cursor g + i)) 0.5 then 1 else 0)%Z
      (seq 0 n).
Proof.
  revert g; induction n as [|n IH]; intros [tp c]; [reflexivity|].
  cbn [random_bits np_random_random tape cursor].
  specialize (IH (mkRng tp (S c))).
  destruct (random_bits n (mkRng tp (S c))) as [bs g2].
  cbn [fst tape cursor] in *. rewrite IH.
  cbn [seq map]. rewrite Nat.add_0_r. f_equal.
  rewrite <- seq_shift, map_map. apply map_ext.
  intros i. now rewrite Nat.add_succ_r.
Qed.

Lemma binary_data_eq t a f o g :
  generate_signal "Binary Data" t a f o g =
  (map (fun i => a * IZR (if gt_b (tape g (cursor g + i)) 0.5 then 1 else 0)
                 + o)
       (seq 0 (length t)),
   mkRng (tape g) (cursor g + length t)).
Proof.
  change (generate_signal "Binary Data" t a f o g)
    with (let (bits, g') := random_bits (length t) g in
          (Numpy.plus_r (Numpy.scale a (map IZR bits)) o, g')).
  pose proof (random_bits_spec (length t) g) as Hb.
  pose proof (random_bits_state (length t) g) as Hs.
  destruct (random_bits (length t) g) as [bits g']. cbn [fst snd] in *.
  subst. unfold Numpy.plus_r, Numpy.scale. now rewrite !map_map.
Qed.

Lemma generate_signal_pure kind t a f o g g' :
  kind <> "Binary Data"%string ->
  fst (generate_signal kind t a f o g) = fst (generate_signal kind t a f o g') /\
  snd (generate_signal kind t a f o g) = g.
Proof.
  intros Hk. apply String.eqb_neq in Hk.
  unfold generate_signal. rewrite Hk.
  repeat match goal with
         | |- context [String.eqb kind ?s] => destruct (String.eqb kind s)
         end; split; reflexivity.
Qed.

Lemma binary_data_differs t a f o :
  t <> [] -> a <> 0 ->
  fst (generate_signal "Binary Data" t a f o (ones_then_zeros (length t))) <>
  fst (generate_signal "Binary Data" t a f o
         (snd (generate_signal "Binary Data" t a f o
                               (ones_then_zeros (length t))))).
Proof.
  intros Ht Ha. rewrite !binary_data_eq. cbn [fst snd tape cursor].
  destruct t as [|t0 t']; [contradiction|].
  cbn [length seq map ones_then_zeros tape cursor].
  rewrite !Nat.add_0_r, Nat.add_0_l, Nat.ltb_irrefl.
  change (0 <? S (length t'))%nat with true.
  unfold gt_b.
  destruct (Rlt_dec 0.5 1); [|lra]. destruct (Rlt_dec 0.5 0); [lra|].
  intros [= H _]. apply Ha. lra.
Qed.

(** ** The generators, kind by kind *)

Lemma generate_sine t a f o g :
  generate_signal "Sine Wave" t a f o g =
  (map (fun ti => a * sin (2 * PI * f * ti) + o) t, g).
Proof.
  change (generate_signal "Sine Wave" t a f o g)
    with (Numpy.plus_r
            (Numpy.scale a (Numpy.sin (Numpy.scale (2 * PI * f) t))) o, g).
  unfold Numpy.plus_r, Numpy.scale, Numpy.sin. now rewrite !map_map.
Qed.

Lemma generate_carrier t a f o g :
  generate_signal "Carrier Wave" t a f o g =
  (map (fun ti => a * sin (2 * PI * f * ti) + o) t, g).
Proof.
  change (generate_signal "Carrier Wave" t a f o g)
    with (Numpy.plus_r
            (Numpy.scale a (Numpy.sin (Numpy.scale (2 * PI * f) t))) o, g).
  unfold Numpy.plus_r, Numpy.scale, Numpy.sin. now rewrite !map_map.
Qed.

Lemma generate_square t a f o g :
  generate_signal "Square Wave" t a f o g =
  (map (fun ti => a * Scipy.square1 0.5 (2 * PI * f * ti) + o) t, g).
Proof.
  change (generate_signal "Square Wave" t a f o g)
    with (Numpy.plus_r
            (Numpy.scale a (Scipy.square (Numpy.scale (2 * PI * f) t) 0.5))
            o, g).
  unfold Numpy.plus_r, Numpy.scale, Scipy.square. now rewrite !map_map.
Qed.

Lemma generate_clock t a f o g :
  generate_signal "Clock Pulse" t a f o g =
  (map (fun ti => a * Scipy.square1 0.5 (2 * PI * f * ti) + o) t, g).
Proof.
  change (generate_signal "Clock Pulse" t a f o g)
    with (Numpy.plus_r
            (Numpy.scale a (Scipy.square (Numpy.scale (2 * PI * f) t) 0.5))
            o, g).
  unfold Numpy.plus_r, Numpy.scale, Scipy.square. now rewrite !map_map.
Qed.

Lemma generate_triangle t a f o g :
  generate_signal "Triangle Wave" t a f o g =
  (map (fun ti => a * Scipy.sawtooth1 0.5 (2 * PI * f * ti) + o) t, g).
Proof.
  change (generate_signal "Triangle Wave" t a f o g)
    with (Numpy.plus_r
            (Numpy.scale a (Scipy.sawtooth (Numpy.scale (2 * PI * f) t) 0.5))
            o, g).
  unfold Numpy.plus_r, Numpy.scale, Scipy.sawtooth. now rewrite !map_map.
Qed.

(** ** Two-valued waveforms and unknown kinds *)

Lemma square1_values d x : Scipy.square1 d x = 1 \/ Scipy.square1 d x = -1.
Proof. unfold Scipy.square1. destruct (Rlt_dec _ _); auto. Qed.

(** X4.  A square wave and a clock pulse take two values only:
    [offset + amplitude] and [offset - amplitude]. *)
Theorem square_wave_two_valued :
  forall (kind : string) (t : Waveform) (a f o : R) (g : rng),
    kind = "Square Wave"%string \/ kind = "Clock Pulse"%string ->
    Forall (fun y => y = o + a \/ y = o - a)
           (fst (generate_signal kind t a f o g)).
Proof.
  intros kind t a f o g [-> | ->];
    [rewrite generate_square | rewrite generate_clock];
    cbn [fst]; apply Forall_map, Forall_forall; intros x _;
    destruct (square1_values 0.5 (2 * PI * f * x)) as [-> | ->];
    [left | right | left | right]; ring.
Qed.

Lemma square_wave_two_valued_witness :
  Forall (fun y => y = 0.5 + 2 \/ y = 0.5 - 2)
         (fst (generate_signal "Clock Pulse" [0; 1; 2] 2 3 0.5
                               (mkRng (fun _ => 0) 0))).
Proof.
  apply (square_wave_two_valued "Clock Pulse" [0; 1; 2] 2 3 0.5
                                (mkRng (fun _ => 0) 0)).
  right; reflexivity.
Defined.

(** X5.  "Binary Data" ignores the frequency and the instants of the
    timebase: only the number of instants, the amplitude, the offset and
    the generator matter; each sample is [offset] or
    [amplitude + offset]. *)
Theorem binary_data_ignores_frequency :
  forall (t t' : Waveform) (a f f' o : R) (g : rng),
    length t = length t' ->
    generate_signal "Binary Data" t a f o g =
      generate_signal "Binary Data" t' a f' o g /\
    Forall (fun y => y = o \/ y = a + o)
           (fst (generate_signal "Binary Data" t a f o g)).
Proof.
  intros t t' a f f' o g Hlen. rewrite !binary_data_eq, Hlen.
  split; [reflexivity|]. cbn [fst].
  apply Forall_map, Forall_forall. intros i _.
  destruct (gt_b _ _); [right | left]; ring.
Qed.

Lemma binary_data_ignores_frequency_witness :
  generate_signal "Binary Data" [0; 1] 2 3 0.5 (mkRng (fun _ => 1) 0) =
    generate_signal "Binary Data" [7; 9] 2 8 0.5 (mkRng (fun _ => 1) 0) /\
  Forall (fun y => y = 0.5 \/ y = 2 + 0.5)
         (fst (generate_signal "Binary Data" [0; 1] 2 3 0.5
                               (mkRng (fun _ => 1) 0))).
Proof.
  apply (binary_data_ignores_frequency [0; 1] [7; 9] 2 3 8 0.5
                                       (mkRng (fun _ => 1) 0)).
  reflexivity.
Defined.

Lemma is_kind_false s :
  is_kind s = false ->
  (s =? "Sine Wave")%string = false /\ (s =? "Square Wave")%string = false /\
  (s =? "Triangle Wave")%string = false /\
  (s =? "Clock Pulse")%string = false /\
  (s =? "Binary Data")%string = false /\
  (s =? "Carrier Wave")%string = false.
Proof.
  unfold is_kind, kinds. simpl.
  repeat (destruct (String.eqb s _); simpl; try discriminate).
  intros _. repeat split.
Qed.

(** X6.  A signal type that is none of the six kinds gives the all-zero
    waveform, one sample per instant, whatever amplitude, frequency and
    offset are (the offset is not added), and draws nothing from the
    generator. *)
Theorem generate_signal_unknown_kind :
  forall (kind : string) (t : Waveform) (a f o : R) (g : rng),
    is_kind kind = false ->
    generate_signal kind t a f o g = (repeat 0 (length t), g).
Proof.
  intros kind t a f o g Hk.
  destruct (is_kind_false kind Hk) as (H1 & H2 & H3 & H4 & H5 & H6).
  unfold generate_signal. rewrite H1, H2, H3, H4, H5, H6. reflexivity.
Qed.

Lemma generate_signal_unknown_kind_witness :
  generate_signal "Message Signal" [0; 1] 2 3 0.5 (mkRng (fun _ => 1) 0) =
  ([0; 0], mkRng (fun _ => 1) 0).
Proof.
  apply (generate_signal_unknown_kind "Message Signal" [0; 1] 2 3 0.5
                                      (mkRng (fun _ => 1) 0)).
  reflexivity.
Defined.

(** ** Modulation: shapes that do not fit *)

Lemma broadcast2_mismatch {A B C : Type} (f : A -> B -> C) xs ys :
  length xs <> length ys -> length xs <> 1%nat -> length ys <> 1%nat ->
  Numpy.broadcast2 f xs ys = Raise ValueError.
Proof.
  intros Hne Hx Hy. unfold Numpy.broadcast2.
  apply Nat.eqb_neq in Hne. rewrite Hne.
  destruct xs as [|x [|x' xs']]; destruct ys as [|y [|y' ys']];
    simpl in *; try reflexivity; lia.
Qed.

Lemma is_scheme_cases s :
  is_scheme s = true ->
  s = "AM"%string \/ s = "FM"%string \/ s = "PM"%string \/
  s = "ASK"%string \/ s = "FSK"%string \/ s = "PSK"%string.
Proof.
  unfold is_scheme, schemes. simpl. rewrite !orb_true_iff, !String.eqb_eq.
  intuition discriminate.
Qed.

Lemma modulate_fm_short fc msg t k :
  (length t < 2)%nat -> modulate_signal fc msg t "FM" k = Raise IndexError.
Proof.
  intros Ht.
  change (modulate_signal fc msg t "FM" k)
    with (t1 <- Numpy.item t 1 ;;
          t0 <- Numpy.item t 0 ;;
          phase <- Numpy.broadcast2 Rplus
                     (Numpy.scale (2 * PI * fc) t)
                     (Numpy.scale k
                        (Numpy.times (Numpy.cumsum msg) (t1 - t0))) ;;
          Ok (Numpy.sin phase)).
  destruct t as [|t0 [|t1 r]]; simpl in *; try reflexivity; lia.
Qed.

(** X7.  A message whose number of samples is neither that of the
    timebase nor one cannot be broadcast against a timebase of two or
    more instants: every scheme raises [ValueError]. *)
Theorem modulate_signal_shape_mismatch :
  forall (s : string) (fc k : R) (msg t : Waveform),
    is_scheme s = true ->
    length msg <> length t ->
    length msg <> 1%nat ->
    (2 <= length t)%nat ->
    modulate_signal fc msg t s k = Raise ValueError.
Proof.
  intros s fc k msg t Hs Hne Hm Ht.
  assert (Hmap : forall (h : R -> R) (l : list R), length (map h l) = length l)
    by (intros; apply length_map).
  destruct (is_scheme_cases s Hs) as [-> | [-> | [-> | [-> | [-> | ->]]]]].
  - change (modulate_signal fc msg t "AM" k)
      with (Numpy.broadcast2 Rmult
              (Numpy.plus_l 1 (Numpy.scale k msg))
              (Numpy.sin (Numpy.scale (2 * PI * fc) t))).
    apply broadcast2_mismatch;
      unfold Numpy.plus_l, Numpy.scale, Numpy.sin; rewrite !length_map; lia.
  - change (modulate_signal fc msg t "FM" k)
      with (t1 <- Numpy.item t 1 ;;
            t0 <- Numpy.item t 0 ;;
            phase <- Numpy.broadcast2 Rplus
                       (Numpy.scale (2 * PI * fc) t)
                       (Numpy.scale k
                          (Numpy.times (Numpy.cumsum msg) (t1 - t0))) ;;
            Ok (Numpy.sin phase)).
    destruct (item_total t 1) as [t1 ->]; [lia|].
    destruct (item_total t 0) as [t0 ->]; [lia|]. cbn [bind].
    rewrite broadcast2_mismatch; [reflexivity| | |];
      unfold Numpy.scale, Numpy.times, Numpy.cumsum;
      rewrite !length_map, ?cumsum_from_length; lia.
  - change (modulate_signal fc msg t "PM" k)
      with (phase <- Numpy.broadcast2 Rplus
                       (Numpy.scale (2 * PI * fc) t)
                       (Numpy.scale k msg) ;;
            Ok (Numpy.sin phase)).
    rewrite broadcast2_mismatch; [reflexivity| | |];
      unfold Numpy.scale; rewrite !length_map; lia.
  - change (modulate_signal fc msg t "ASK" k)
      with (Numpy.broadcast2 Rmult
              (Numpy.sin (Numpy.scale (2 * PI * fc) t))
              (Numpy.plus_r
                 (Numpy.times (Numpy.astype_float (Numpy.greater msg 0)) 0.5)
                 0.5)).
    apply broadcast2_mismatch;
      unfold Numpy.plus_r, Numpy.times, Numpy.astype_float, Numpy.greater,
        Numpy.scale, Numpy.sin; rewrite !length_map; lia.
  - change (modulate_signal fc msg t "FSK" k)
      with (Numpy.where_ (Numpy.greater msg 0)
              (Numpy.sin (Numpy.scale (2 * PI * fc * 1.5) t))
              (Numpy.sin (Numpy.scale (2 * PI * fc) t))).
    unfold Numpy.where_.
    rewrite broadcast2_same_length
      by (unfold Numpy.scale, Numpy.sin; now rewrite !length_map).
    cbn [bind].
    assert (Hz : length (Numpy.zip_with pair
                           (Numpy.sin (Numpy.scale (2 * PI * fc * 1.5) t))
                           (Numpy.sin (Numpy.scale (2 * PI * fc) t)))
                 = length t).
    { rewrite zip_with_length;
        unfold Numpy.scale, Numpy.sin; now rewrite !length_map. }
    apply broadcast2_mismatch; unfold Numpy.greater;
      rewrite ?length_map, ?Hz; lia.
  - change (modulate_signal fc msg t "PSK" k)
      with (Numpy.broadcast2 Rmult
              (Numpy.sin (Numpy.scale (2 * PI * fc) t)) (Numpy.sign msg)).
    apply broadcast2_mismatch;
      unfold Numpy.sign, Numpy.scale, Numpy.sin; rewrite !length_map; lia.
Qed.

Lemma modulate_signal_shape_mismatch_witness :
  modulate_signal 10 [1; 2; 3] [0; 1] "FSK" 1 = Raise ValueError.
Proof.
  apply (modulate_signal_shape_mismatch "FSK" 10 1 [1; 2; 3] [0; 1]).
  - reflexivity.
  - simpl; lia.
  - simpl; lia.
  - simpl; lia.
Defined.

Lemma modulate_non_fm_total fc msg t s k :
  s <> "FM"%string ->
  length msg = length t ->
  exists w, modulate_signal fc msg t s k = Ok w /\ length w = length t.
Proof.
  intros Hs Hlen.
  apply String.eqb_neq in Hs.
  assert (Hl : forall (h : R -> R) (l : list R), length (map h l) = length l)
    by (intros; apply length_map).
  unfold modulate_signal. rewrite Hs.
  destruct (String.eqb s "AM").
  { rewrite broadcast2_same_length
      by (unfold Numpy.plus_l, Numpy.scale, Numpy.sin; now rewrite !length_map).
    eexists; split; [reflexivity|].
    rewrite zip_with_length;
      unfold Numpy.plus_l, Numpy.scale, Numpy.sin; now rewrite !length_map. }
  destruct (String.eqb s "PM").
  { rewrite broadcast2_same_length
      by (unfold Numpy.scale; now rewrite !length_map).
    cbn [bind]. eexists; split; [reflexivity|].
    unfold Numpy.sin. rewrite length_map, zip_with_length;
      unfold Numpy.scale; now rewrite !length_map. }
  destruct (String.eqb s "ASK").
  { rewrite broadcast2_same_length
      by (unfold Numpy.plus_r, Numpy.times, Numpy.astype_float, Numpy.greater,
            Numpy.scale, Numpy.sin; now rewrite !length_map).
    eexists; split; [reflexivity|].
    rewrite zip_with_length;
      unfold Numpy.plus_r, Numpy.times, Numpy.astype_float, Numpy.greater,
        Numpy.scale, Numpy.sin; now rewrite !length_map. }
  destruct (String.eqb s "FSK").
  { unfold Numpy.where_.
    rewrite broadcast2_same_length
      by (unfold Numpy.scale, Numpy.sin; now rewrite !length_map).
    cbn [bind].
    assert (Hz : length (Numpy.zip_with pair
                           (Numpy.sin (Numpy.scale (2 * PI * fc * 1.5) t))
                           (Numpy.sin (Numpy.scale (2 * PI * fc) t)))
                 = length t).
    { rewrite zip_with_length;
        unfold Numpy.scale, Numpy.sin; now rewrite !length_map. }
    rewrite broadcast2_same_length
      by (unfold Numpy.greater; now rewrite length_map, Hz).
    eexists; split; [reflexivity|].
    rewrite zip_with_length; unfold Numpy.greater; rewrite length_map; auto.
    now rewrite Hz. }
  destruct (String.eqb s "PSK").
  { rewrite broadcast2_same_length
      by (unfold Numpy.sign, Numpy.scale, Numpy.sin; now rewrite !length_map).
    eexists; split; [reflexivity|].
    rewrite zip_with_length;
      unfold Numpy.sign, Numpy.scale, Numpy.sin; now rewrite !length_map. }
  eexists; split; [reflexivity|]. apply repeat_length.
Qed.

(** X8.  FM reads [t[1]] before anything else: on a timebase of fewer
    than two instants it raises [IndexError] whatever the message is,
    while every other scheme string returns one sample per instant on
    the same timebase when the message has one sample per instant. *)
Theorem fm_needs_two_instants :
  forall (fc k : R) (msg msg' t : Waveform) (s : string),
    (length t < 2)%nat ->
    s <> "FM"%string ->
    length msg' = length t ->
    modulate_signal fc msg t "FM" k = Raise IndexError /\
    exists w, modulate_signal fc msg' t s k = Ok w /\ length w = length t.
Proof.
  intros fc k msg msg' t s Ht Hs Hlen. split.
  - now apply modulate_fm_short.
  - now apply modulate_non_fm_total.
Qed.

Lemma fm_needs_two_instants_witness :
  modulate_signal 10 [1; 2; 3] [0] "FM" 1 = Raise IndexError /\
  exists w, modulate_signal 10 [1] [0] "PM" 1 = Ok w /\ length w = 1%nat.
Proof.
  apply (fm_needs_two_instants 10 1 [1; 2; 3] [1] [0] "PM").
  - simpl; lia.
  - discriminate.
  - reflexivity.
Defined.

(** ** Modulation: what the digital schemes look at *)

Lemma sign1_gt_b m m' :
  Numpy.sign1 m = Numpy.sign1 m' -> gt_b m 0 = gt_b m' 0.
Proof.
  unfold Numpy.sign1, gt_b.
  destruct (Rlt_dec m 0), (Rlt_dec 0 m), (Rlt_dec m' 0), (Rlt_dec 0 m');
    intros H; try reflexivity; lra.
Qed.

Lemma sign_greater msg msg' :
  Numpy.sign msg = Numpy.sign msg' ->
  Numpy.greater msg 0 = Numpy.greater msg' 0.
Proof.
  unfold Numpy.sign, Numpy.greater.
  revert msg'; induction msg as [|m ms IH]; intros [|m' ms'] H;
    simpl in *; try discriminate; auto.
  injection H as H1 H2. f_equal; [now apply sign1_gt_b | now apply IH].
Qed.

(** X9.  ASK, FSK and PSK are keyed by the sign of the message only: two
    messages with the same signs, sample by sample, give the same result
    (or the same exception), and the modulation index plays no part. *)
Theorem keying_depends_on_sign_only :
  forall (s : string) (fc k k' : R) (msg msg' t : Waveform),
    s = "ASK"%string \/ s = "FSK"%string \/ s = "PSK"%string ->
    Numpy.sign msg = Numpy.sign msg' ->
    modulate_signal fc msg t s k = modulate_signal fc msg' t s k'.
Proof.
  intros s fc k k' msg msg' t Hs Hsign.
  pose proof (sign_greater msg msg' Hsign) as Hg.
  destruct Hs as [-> | [-> | ->]].
  - change (Numpy.broadcast2 Rmult
              (Numpy.sin (Numpy.scale (2 * PI * fc) t))
              (Numpy.plus_r
                 (Numpy.times (Numpy.astype_float (Numpy.greater msg 0)) 0.5)
                 0.5) =
            Numpy.broadcast2 Rmult
              (Numpy.sin (Numpy.scale (2 * PI * fc) t))
              (Numpy.plus_r
                 (Numpy.times (Numpy.astype_float (Numpy.greater msg' 0)) 0.5)
                 0.5)).
    now rewrite Hg.
  - change (Numpy.where_ (Numpy.greater msg 0)
              (Numpy.sin (Numpy.scale (2 * PI * fc * 1.5) t))
              (Numpy.sin (Numpy.scale (2 * PI * fc) t)) =
            Numpy.where_ (Numpy.greater msg' 0)
              (Numpy.sin (Numpy.scale (2 * PI * fc * 1.5) t))
              (Numpy.sin (Numpy.scale (2 * PI * fc) t))).
    now rewrite Hg.
  - change (Numpy.broadcast2 Rmult
              (Numpy.sin (Numpy.scale (2 * PI * fc) t)) (Numpy.sign msg) =
            Numpy.broadcast2 Rmult
              (Numpy.sin (Numpy.scale (2 * PI * fc) t)) (Numpy.sign msg')).
    now rewrite Hsign.
Qed.

Lemma keying_depends_on_sign_only_witness :
  modulate_signal 10 [0.3; -2; 0] [0; 1; 2] "ASK" 1 =
  modulate_signal 10 [7; -0.1; 0] [0; 1; 2] "ASK" 4.
Proof.
  apply (keying_depends_on_sign_only "ASK" 10 1 4
                                     [0.3; -2; 0] [7; -0.1; 0] [0; 1; 2]).
  - left; reflexivity.
  - unfold Numpy.sign, Numpy.sign1. simpl.
    repeat match goal with
           | |- context [Rlt_dec ?a ?b] => destruct (Rlt_dec a b); try lra
           end.
    reflexivity.
Defined.

(** ** Modulation: index zero *)

Lemma zip_with_plus_zero (xs ms : list R) :
  length ms = length xs ->
  Numpy.zip_with Rplus xs (Numpy.scale 0 ms) = xs.
Proof.
  revert ms; induction xs as [|x xs IH]; intros [|m ms] H; simpl in *;
    try discriminate; auto.
  f_equal; [lra | apply IH; lia].
Qed.

(** X10.  With modulation index 0, PM returns the carrier itself, for a
    message with one sample per instant: the message has no effect. *)
Theorem pm_index_zero_is_carrier :
  forall (fc : R) (msg t : Waveform),
    length msg = length t ->
    modulate_signal fc msg t "PM" 0 =
    Ok (map (fun ti => sin (2 * PI * fc * ti)) t).
Proof.
  intros fc msg t Hlen.
  change (modulate_signal fc msg t "PM" 0)
    with (phase <- Numpy.broadcast2 Rplus
                     (Numpy.scale (2 * PI * fc) t)
                     (Numpy.scale 0 msg) ;;
          Ok (Numpy.sin phase)).
  rewrite broadcast2_same_length
    by (unfold Numpy.scale; now rewrite !length_map).
  cbn [bind]. rewrite zip_with_plus_zero
    by (unfold Numpy.scale; now rewrite length_map).
  now rewrite carrier_wave_eq.
Qed.

Lemma pm_index_zero_is_carrier_witness :
  modulate_signal 10 [3; -2] [0; 1] "PM" 0 =
  Ok [sin (2 * PI * 10 * 0); sin (2 * PI * 10 * 1)].
Proof.
  apply (pm_index_zero_is_carrier 10 [3; -2] [0; 1]). reflexivity.
Defined.

(** ** Demodulation: errors and values *)

Lemma demodulate_angle_eq w :
  demodulate_signal w "FM" = demodulate_signal w "PM".
Proof. reflexivity. Qed.

Lemma demodulate_fm_eq w :
  demodulate_signal w "FM" =
  (d <- Numpy.gradient
          (Numpy.unwrap
             (Numpy.angle
                (map (fun s => Numpy.cadd (Numpy.of_real s)
                                 (Numpy.cmul Numpy.j (Numpy.of_real s)))
                     w))) ;;
   Ok (FloatArr d)).
Proof. reflexivity. Qed.

(** X13.  The FM and PM branch needs two samples: on an empty or
    one-sample waveform it raises [ValueError] (from [np.gradient]),
    while every other scheme string returns a result on any waveform,
    the empty one included. *)
Theorem demodulate_needs_two_samples :
  forall (w : Waveform) (s : string),
    (length w < 2)%nat ->
    s <> "FM"%string -> s <> "PM"%string ->
    demodulate_signal w "FM" = Raise ValueError /\
    demodulate_signal w "PM" = Raise ValueError /\
    exists out, demodulate_signal w s = Ok out /\ size out = length w.
Proof.
  intros w s Hw Hfm Hpm.
  assert (E : demodulate_signal w "FM" = Raise ValueError).
  { rewrite demodulate_fm_eq.
    destruct w as [|x [|y r]]; simpl in Hw; try lia; reflexivity. }
  split; [exact E|]. split; [now rewrite <- demodulate_angle_eq|].
  apply String.eqb_neq in Hfm, Hpm.
  assert (exists out, demodulate_signal w s = Ok out) as [out Hout].
  { unfold demodulate_signal. rewrite Hfm, Hpm. cbn [orb].
    destruct (String.eqb s "AM"); eauto.
    destruct (String.eqb s "ASK"); eauto.
    destruct (String.eqb s "PSK" || String.eqb s "FSK")%bool; eauto. }
  exists out. split; [exact Hout|]. now apply demodulate_signal_size in Hout.
Qed.

Lemma demodulate_needs_two_samples_witness :
  demodulate_signal [0.7] "FM" = Raise ValueError /\
  demodulate_signal [0.7] "PM" = Raise ValueError /\
  exists out, demodulate_signal [0.7] "ASK" = Ok out /\ size out = 1%nat.
Proof.
  apply (demodulate_needs_two_samples [0.7] "ASK").
  - simpl; lia.
  - discriminate.
  - discriminate.
Defined.

Lemma demodulate_sample_values w s out :
  demodulate_signal w s = Ok out ->
  (s = "AM"%string -> Forall (fun y => 0 <= y) (samples out)) /\
  (s = "ASK"%string \/ s = "PSK"%string \/ s = "FSK"%string ->
   Forall (fun y => y = 0 \/ y = 1) (samples out)).
Proof.
  intros H. split.
  - intros ->. injection H as <-. cbn [samples]. unfold Numpy.abs.
    apply Forall_map, Forall_forall. intros x _. apply Rabs_pos.
  - assert (Hb : forall bs, Forall (fun y => y = 0 \/ y = 1)
                                   (map bool_to_R bs)).
    { intros bs. apply Forall_map, Forall_forall. intros [|] _; simpl; auto. }
    intros [-> | [-> | ->]]; injection H as <-; cbn [samples]; apply Hb.
Qed.

(** X14.  What a demodulated sample can be: under AM it is never
    negative; under ASK, PSK and FSK it is 0 or 1 (as a number). *)
Theorem demodulated_values :
  forall (w : Waveform) (s : string) (out : ndarray),
    demodulate_signal w s = Ok out ->
    (s = "AM"%string -> Forall (fun y => 0 <= y) (samples out)) /\
    (s = "ASK"%string \/ s = "PSK"%string \/ s = "FSK"%string ->
     Forall (fun y => y = 0 \/ y = 1) (samples out)).
Proof. intros w s out. apply demodulate_sample_values. Qed.

Lemma demodulated_values_witness :
  Forall (fun y => y = 0 \/ y = 1)
         (samples (BoolArr (Numpy.greater [0.3; -1] 0.1))).
Proof.
  refine (proj2 (demodulated_values [0.3; -1] "ASK" _ _) _).
  - reflexivity.
  - left; reflexivity.
Defined.

(** ** Demodulation: the phase of a signal of one sign *)

Lemma constant_list (c : R) (l : list R) :
  Forall (fun x => x = c) l -> l = repeat c (length l).
Proof.
  induction 1 as [|x l -> _ IH]; simpl; [reflexivity|]. now rewrite IH at 1.
Qed.

Lemma ph_correct_zero : Numpy.ph_correct 0 = 0.
Proof.
  unfold Numpy.ph_correct. pose proof PI_RGT_0.
  destruct (Rlt_dec (Rabs 0) (2 * PI / 2)) as [_|Hn]; [reflexivity|].
  exfalso. apply Hn. rewrite Rabs_R0. lra.
Qed.

Lemma cumsum_from_zeros acc l :
  Forall (fun x => x = 0) l ->
  Forall (fun x => x = acc) (Numpy.cumsum_from acc l).
Proof.
  intros H. revert acc.
  induction H as [|x l -> _ IH]; intros acc; simpl; constructor.
  - lra.
  - replace (acc + 0) with acc by lra. apply IH.
Qed.

Lemma unwrap_constant c p :
  Forall (fun x => x = c) p -> Forall (fun x => x = c) (Numpy.unwrap p).
Proof.
  intros H. destruct p as [|p0 rest]; simpl; [constructor|].
  inversion H as [|? ? Hp0 Hrest]; subst. constructor; [reflexivity|].
  apply (zip_with_Forall Rplus (fun x => x = c) (fun x => x = 0)).
  - intros x y -> ->. lra.
  - exact Hrest.
  - unfold Numpy.cumsum. apply cumsum_from_zeros.
    apply Forall_map. unfold Numpy.diff. cbn [tl].
    apply (zip_with_Forall (fun a b => b - a)
                           (fun x => x = c) (fun x => x = c)).
    + intros x y -> ->. replace (c - c) with 0 by lra. apply ph_correct_zero.
    + exact H.
    + exact Hrest.
Qed.

Lemma gradient_interior_constant c f :
  Forall (fun x => x = c) f ->
  Forall (fun x => x = 0) (Numpy.gradient_interior f).
Proof.
  induction 1 as [|a r -> Hr IH]; simpl; [constructor|].
  destruct r as [|b [|c' r']]; try constructor.
  - inversion Hr as [|? ? _ Hr']; subst.
    inversion Hr' as [|? ? Hc' _]; subst. lra.
  - exact IH.
Qed.

Lemma nth_constant c f i :
  Forall (fun x => x = c) f -> (i < length f)%nat -> nth i f 0 = c.
Proof.
  intros H Hi. rewrite Forall_forall in H. apply H. now apply nth_In.
Qed.

Lemma gradient_constant c f d :
  Forall (fun x => x = c) f ->
  Numpy.gradient f = Ok d -> Forall (fun x => x = 0) d.
Proof.
  intros H. unfold Numpy.gradient.
  destruct f as [|f0 [|f1 r]]; try discriminate.
  assert (Hf0 : f0 = c) by (inversion H; assumption).
  assert (Hf1 : f1 = c)
    by (inversion H as [|? ? _ H']; inversion H'; assumption).
  assert (Hlen : (2 <= length (f0 :: f1 :: r))%nat) by (simpl; lia).
  remember (f0 :: f1 :: r) as f eqn:Ef. clear Ef.
  cbv zeta. intros [= <-].
  constructor; [lra|].
  apply Forall_app. split; [now apply (gradient_interior_constant c)|].
  constructor; [|constructor].
  rewrite !(nth_constant c f) by (assumption || lia). lra.
Qed.

Lemma analytic_angle_constant w :
  Forall (fun s => 0 < s) w \/ Forall (fun s => s < 0) w ->
  exists c,
    Forall (fun x => x = c)
           (Numpy.angle
              (map (fun s => Numpy.cadd (Numpy.of_real s)
                               (Numpy.cmul Numpy.j (Numpy.of_real s)))
                   w)).
Proof.
  intros [H | H]; [exists (PI / 4) | exists (PI / 4 - PI)];
    unfold Numpy.angle; rewrite !Forall_map;
    (eapply Forall_impl; [|exact H]); cbv beta; intros s Hs;
    unfold Numpy.arctan2, Numpy.cadd, Numpy.cmul, Numpy.of_real, Numpy.j;
    cbn [fst snd].
  - destruct (Rlt_dec 0 (s + (0 * s - 1 * 0))) as [_|Hn]; [|exfalso; lra].
    replace ((0 + (0 * 0 + 1 * s)) / (s + (0 * s - 1 * 0))) with 1
      by (field; lra).
    apply atan_1.
  - destruct (Rlt_dec 0 (s + (0 * s - 1 * 0))) as [Hp|_]; [exfalso; lra|].
    destruct (Rlt_dec (s + (0 * s - 1 * 0)) 0) as [_|Hn]; [|exfalso; lra].
    destruct (Rlt_dec (0 + (0 * 0 + 1 * s)) 0) as [_|Hn]; [|exfalso; lra].
    replace ((0 + (0 * 0 + 1 * s)) / (s + (0 * s - 1 * 0))) with 1
      by (field; lra).
    now rewrite atan_1.
Qed.

(** X15.  The FM/PM demodulator only sees sign changes: on a waveform of
    at least two samples that are all strictly positive, or all strictly
    negative, it returns the all-zero waveform, whatever the values
    are. *)
Theorem phase_demodulation_of_one_sign :
  forall (w : Waveform) (s : string),
    s = "FM"%string \/ s = "PM"%string ->
    (2 <= length w)%nat ->
    Forall (fun x => 0 < x) w \/ Forall (fun x => x < 0) w ->
    demodulate_signal w s = Ok (FloatArr (repeat 0 (length w))).
Proof.
  intros w s Hs Hw Hsign.
  assert (E : demodulate_signal w s = demodulate_signal w "FM")
    by (destruct Hs as [-> | ->]; reflexivity).
  rewrite E. clear E Hs.
  destruct (demodulate_signal_total w "FM" Hw) as [out Hout].
  pose proof (demodulate_signal_size w "FM" out Hout) as Hsize.
  rewrite Hout. rewrite demodulate_fm_eq in Hout.
  destruct (analytic_angle_constant w Hsign) as [c Hc].
  apply unwrap_constant in Hc.
  destruct (Numpy.gradient _) as [d|e] eqn:Eg; cbn [bind] in Hout;
    try discriminate.
  injection Hout as <-. cbn [size] in Hsize.
  apply (gradient_constant c) in Eg; [|exact Hc].
  rewrite (constant_list 0 d Eg), Hsize. reflexivity.
Qed.

Lemma phase_demodulation_of_one_sign_witness :
  demodulate_signal [0.2; 5; 1] "FM" = Ok (FloatArr [0; 0; 0]).
Proof.
  apply (phase_demodulation_of_one_sign [0.2; 5; 1] "FM").
  - left; reflexivity.
  - simpl; lia.
  - left. repeat constructor; lra.
Defined.

(** ** AM: modulation followed by demodulation *)

Lemma zip_with_abs_am k (ms ts : list R) fc :
  Numpy.abs
    (Numpy.zip_with Rmult (Numpy.plus_l 1 (Numpy.scale k ms))
                    (carrier_wave fc ts)) =
  Numpy.zip_with (fun m ti => Rabs (1 + k * m) * Rabs (sin (2 * PI * fc * ti)))
                 ms ts.
Proof.
  revert ts; induction ms as [|m ms IH]; intros [|ti ts]; simpl; auto.
  f_equal; [apply Rabs_mult | apply IH].
Qed.

(** X16.  AM demodulation of an AM-modulated message is the rectified
    envelope: at each instant [|1 + index*m| * |sin(2*pi*fc*t)|], for a
    message with one sample [m] per instant [t]. *)
Theorem am_roundtrip_is_rectified_envelope :
  forall (fc k : R) (msg t : Waveform),
    length msg = length t ->
    (w <- modulate_signal fc msg t "AM" k ;; demodulate_signal w "AM") =
    Ok (FloatArr
          (Numpy.zip_with
             (fun m ti => Rabs (1 + k * m) * Rabs (sin (2 * PI * fc * ti)))
             msg t)).
Proof.
  intros fc k msg t Hlen.
  change (modulate_signal fc msg t "AM" k)
    with (Numpy.broadcast2 Rmult
            (Numpy.plus_l 1 (Numpy.scale k msg))
            (Numpy.sin (Numpy.scale (2 * PI * fc) t))).
  rewrite carrier_wave_eq.
  rewrite broadcast2_same_length
    by (unfold Numpy.plus_l, Numpy.scale, carrier_wave;
        now rewrite !length_map).
  cbn [bind].
  change (demodulate_signal ?x "AM") with (Ok (FloatArr (Numpy.abs x))).
  now rewrite zip_with_abs_am.
Qed.

Lemma am_roundtrip_is_rectified_envelope_witness :
  (w <- modulate_signal 10 [3; -2] [0; 1] "AM" 1 ;; demodulate_signal w "AM") =
  Ok (FloatArr [Rabs (1 + 1 * 3) * Rabs (sin (2 * PI * 10 * 0));
                Rabs (1 + 1 * -2) * Rabs (sin (2 * PI * 10 * 1))]).
Proof.
  apply (am_roundtrip_is_rectified_envelope 10 1 [3; -2] [0; 1]).
  reflexivity.
Defined.

(** ** Channel evaluation: every branch *)

Lemma contains_lstrip (c : ascii) (sub s : string) :
  is_space c = false ->
  contains (String c sub) s = true ->
  lstrip s <> EmptyString.
Proof.
  intros Hc. induction s as [|a s IH]; [discriminate|].
  cbn [contains String.prefix lstrip].
  destruct (is_space a) eqn:Ea; [|discriminate].
  destruct (ascii_dec c a) as [->|_]; [congruence|].
  exact IH.
Qed.

Lemma split_first_total (c : ascii) (sub s : string) :
  is_space c = false ->
  contains (String c sub) s = true ->
  exists w, split_first s = Ok w.
Proof.
  intros Hc Hs. pose proof (contains_lstrip c sub s Hc Hs) as Hl.
  unfold split_first. destruct (lstrip s); [congruence|eauto].
Qed.

Lemma affine_length a out o : length (affine a out o) = size out.
Proof.
  unfold affine, Numpy.plus_r, Numpy.scale. rewrite !length_map.
  destruct out; simpl; now rewrite ?length_map.
Qed.

Lemma channel_signal_total t msg fc ch g :
  length msg = length t -> (2 <= length t)%nat ->
  exists w, channel_signal t msg fc ch g = (Ok w, g) /\ length w = length t.
Proof.
  intros Hlen Ht. unfold channel_signal.
  destruct (contains "Message Signal" (signal_type ch)).
  { rewrite generate_sine. eexists; split; [reflexivity|]. apply length_map. }
  destruct (contains "Clock Pulse" (signal_type ch)).
  { rewrite generate_clock. eexists; split; [reflexivity|]. apply length_map. }
  destruct (contains "Carrier Wave" (signal_type ch)).
  { rewrite generate_carrier. eexists; split; [reflexivity|].
    apply length_map. }
  destruct (contains "Modulated" (signal_type ch)) eqn:Em.
  { destruct (split_first_total "M" "odulated" (signal_type ch) eq_refl Em)
      as [mt ->]. cbn [bind].
    destruct (modulate_signal_total fc msg t mt (mod_index ch) Hlen Ht)
      as (w & -> & Hw). cbn [bind].
    eexists; split; [reflexivity|]. now rewrite affine_length. }
  destruct (contains "Demodulated" (signal_type ch)) eqn:Ed.
  { destruct (split_first_total "D" "emodulated" (signal_type ch) eq_refl Ed)
      as [mt ->]. cbn [bind].
    destruct (modulate_signal_total fc msg t mt (mod_index ch) Hlen Ht)
      as (w & -> & Hw). cbn [bind].
    rewrite <- Hw in Ht.
    destruct (demodulate_signal_total w mt Ht) as [out Hout].
    pose proof (demodulate_signal_size w mt out Hout) as Hsize.
    rewrite Hout. cbn [bind].
    eexists; split; [reflexivity|]. rewrite affine_length. congruence. }
  eexists; split; [reflexivity|]. apply repeat_length.
Qed.

(** X17.  Whatever the channel's signal type string and parameters are,
    evaluating it against a timebase of at least two instants and a
    message with one sample per instant raises nothing: it returns one
    sample per instant and leaves the random generator untouched. *)
Theorem channel_signal_never_raises :
  forall (t msg : Waveform) (fc : R) (ch : channel) (g : rng),
    length msg = length t ->
    (2 <= length t)%nat ->
    exists w, channel_signal t msg fc ch g = (Ok w, g) /\
              length w = length t.
Proof. intros. now apply channel_signal_total. Qed.

Lemma channel_signal_never_raises_witness :
  exists w,
    channel_signal [0; 1] [0.5; -0.5] 10
                   (mkChannel true "FM Demodulated" 1 1 0 1)
                   (mkRng (fun _ => 0) 0) = (Ok w, mkRng (fun _ => 0) 0) /\
    length w = 2%nat.
Proof.
  apply (channel_signal_never_raises
           [0; 1] [0.5; -0.5] 10 (mkChannel true "FM Demodulated" 1 1 0 1)
           (mkRng (fun _ => 0) 0)).
  - reflexivity.
  - simpl; lia.
Defined.

Lemma menu_dispatch s t msg fc e a f o k g :
  is_scheme s = true ->
  channel_signal t msg fc (mkChannel e (s ++ " Modulated") a f o k) g =
    (w <- modulate_signal fc msg t s k ;; Ok (affine a (FloatArr w) o), g) /\
  channel_signal t msg fc (mkChannel e (s ++ " Demodulated") a f o k) g =
    (w <- modulate_signal fc msg t s k ;;
     d <- demodulate_signal w s ;; Ok (affine a d o), g).
Proof.
  intros Hs.
  destruct (is_scheme_cases s Hs) as [-> | [-> | [-> | [-> | [-> | ->]]]]];
    split; reflexivity.
Qed.

(** X18.  The menu entries reach the scheme they name: for each of the
    six schemes [s], the type "[s] Modulated" shows
    [amplitude * modulate(s) + offset] and "[s] Demodulated" shows
    [amplitude * demodulate(modulate(s), s) + offset], both with the
    global carrier frequency and the shared message; the channel's own
    frequency is not used. *)
Theorem menu_entries_dispatch :
  forall (s : string) (t msg : Waveform) (fc : R) (e : bool)
         (a f o k : R) (g : rng),
    is_scheme s = true ->
    channel_signal t msg fc (mkChannel e (s ++ " Modulated") a f o k) g =
      (w <- modulate_signal fc msg t s k ;; Ok (affine a (FloatArr w) o), g) /\
    channel_signal t msg fc (mkChannel e (s ++ " Demodulated") a f o k) g =
      (w <- modulate_signal fc msg t s k ;;
       d <- demodulate_signal w s ;; Ok (affine a d o), g).
Proof. intros. now apply menu_dispatch. Qed.

Lemma menu_entries_dispatch_witness :
  channel_signal [0; 1] [0.5; -0.5] 10
                 (mkChannel true "PSK Modulated" 2 1 0.5 1)
                 (mkRng (fun _ => 0) 0) =
    (w <- modulate_signal 10 [0.5; -0.5] [0; 1] "PSK" 1 ;;
     Ok (affine 2 (FloatArr w) 0.5), mkRng (fun _ => 0) 0) /\
  channel_signal [0; 1] [0.5; -0.5] 10
                 (mkChannel true "PSK Demodulated" 2 1 0.5 1)
                 (mkRng (fun _ => 0) 0) =
    (w <- modulate_signal 10 [0.5; -0.5] [0; 1] "PSK" 1 ;;
     d <- demodulate_signal w "PSK" ;; Ok (affine 2 d 0.5),
     mkRng (fun _ => 0) 0).
Proof.
  apply (menu_entries_dispatch "PSK" [0; 1] [0.5; -0.5] 10 true 2 1 0.5 1
                               (mkRng (fun _ => 0) 0)).
  reflexivity.
Defined.

(** X19.  A channel whose type contains "Message Signal" shows
    [amplitude*sin(2*pi*frequency*t) + offset] with its own frequency,
    and one that contains "Clock Pulse" (and not "Message Signal") shows
    the square wave of its own frequency: neither depends on the carrier
    frequency, the shared message or the modulation index, whatever else
    the type string contains. *)
Theorem raw_channels_use_own_frequency :
  forall (t msg : Waveform) (fc : R) (e : bool) (ty : string)
         (a f o k : R) (g : rng),
    contains "Message Signal" ty = true \/ contains "Clock Pulse" ty = true ->
    channel_signal t msg fc (mkChannel e ty a f o k) g =
      (Ok (map (fun ti =>
                  a * (if contains "Message Signal" ty
                       then sin (2 * PI * f * ti)
                       else Scipy.square1 0.5 (2 * PI * f * ti)) + o) t),
       g).
Proof.
  intros t msg fc e ty a f o k g H. unfold channel_signal.
  cbn [signal_type amplitude frequency offset mod_index].
  destruct (contains "Message Signal" ty).
  - now rewrite generate_sine.
  - destruct H as [H | H]; [discriminate|]. rewrite H.
    now rewrite generate_clock.
Qed.

Lemma raw_channels_use_own_frequency_witness :
  channel_signal [0; 1] [0.5; -0.5] 10
                 (mkChannel true "Clock Pulse" 2 3 0.5 1)
                 (mkRng (fun _ => 0) 0) =
  (Ok [2 * Scipy.square1 0.5 (2 * PI * 3 * 0) + 0.5;
       2 * Scipy.square1 0.5 (2 * PI * 3 * 1) + 0.5],
   mkRng (fun _ => 0) 0).
Proof.
  apply (raw_channels_use_own_frequency
           [0; 1] [0.5; -0.5] 10 true "Clock Pulse" 2 3 0.5 1
           (mkRng (fun _ => 0) 0)).
  right; reflexivity.
Defined.

(** ** Controls *)

Lemma option_needs_index (ty : string) :
  In ty (mod_signal_options ++ demod_signal_options) ->
  (contains "AM" ty && contains "Modulated" ty)%bool =
  (ty =? "AM Modulated")%string.
Proof.
  unfold mod_signal_options, demod_signal_options. cbn [app In].
  intros H.
  repeat (destruct H as [<- | H]; [reflexivity|]). destruct H.
Qed.

Lemma final_type_is_option (u : widgets) :
  widgets_in_range u ->
  In (signal_type (channel_controls u))
     (mod_signal_options ++ demod_signal_options).
Proof.
  intros (Hm & Hd & _). unfold channel_controls. cbn [signal_type].
  apply in_or_app. destruct (String.eqb (w_source u) "Demodulation"); auto.
Qed.

(** X20.  For widget values within their options and bounds,
    [channel_controls] returns one of the fifteen menu entries as signal
    type, the "Demodulation" entry exactly when the radio button says
    so; the modulation index is the slider's value (between 0 and 5) for
    "AM Modulated" and 1 for every other entry, "AM Demodulated", "FM
    Modulated" and "PM Modulated" included; amplitude, frequency and
    offset are the sliders' values. *)
Theorem channel_controls_in_range :
  forall (u : widgets),
    widgets_in_range u ->
    In (signal_type (channel_controls u))
       (mod_signal_options ++ demod_signal_options) /\
    (In (signal_type (channel_controls u)) demod_signal_options <->
     w_source u = "Demodulation"%string) /\
    mod_index (channel_controls u) =
      (if (signal_type (channel_controls u) =? "AM Modulated")%string
       then w_mod u else 1) /\
    0 <= mod_index (channel_controls u) <= 5 /\
    0 <= amplitude (channel_controls u) <= 2 /\
    0.1 <= frequency (channel_controls u) <= 10 /\
    -2 <= offset (channel_controls u) <= 2.
Proof.
  intros u Hu. pose proof (final_type_is_option u Hu) as Hty.
  pose proof (option_needs_index _ Hty) as Hidx.
  destruct Hu as (Hm & Hd & Hs & Ha & Hf & Ho & Hk).
  assert (Hmi : mod_index (channel_controls u) =
                (if (signal_type (channel_controls u) =? "AM Modulated")%string
                 then w_mod u else 1)).
  { rewrite <- Hidx. unfold channel_controls.
    cbn [signal_type mod_index].
    destruct (contains "AM" _ && contains "Modulated" _)%bool;
      [reflexivity | lra]. }
  split; [exact Hty|]. split; [|split; [exact Hmi|]].
  - unfold channel_controls. cbn [signal_type].
    destruct (String.eqb (w_source u) "Demodulation") eqn:Es.
    + apply String.eqb_eq in Es. tauto.
    + apply String.eqb_neq in Es. split; [|tauto].
      intros Hin. exfalso. clear - Hm Hin.
      unfold mod_signal_options, demod_signal_options in *.
      cbn [In] in Hm, Hin.
      repeat (destruct Hm as [Hm | Hm];
              [rewrite <- Hm in Hin;
               repeat (destruct Hin as [Hin | Hin]; [discriminate|]);
               destruct Hin|]).
      destruct Hm.
  - split.
    + rewrite Hmi. destruct (String.eqb _ _); lra.
    + unfold channel_controls. cbn [amplitude frequency offset].
      repeat split; lra.
Qed.

Lemma channel_controls_in_range_witness :
  mod_index (channel_controls
               (mkWidgets true "FM Modulated" "AM Demodulated" "Demodulation"
                          1.5 2 0.5 3)) =
  (if (signal_type
         (channel_controls
            (mkWidgets true "FM Modulated" "AM Demodulated" "Demodulation"
                       1.5 2 0.5 3)) =? "AM Modulated")%string
   then 3 else 1).
Proof.
  refine (proj1 (proj2 (proj2 (channel_controls_in_range
           (mkWidgets true "FM Modulated" "AM Demodulated" "Demodulation"
                      1.5 2 0.5 3) _)))).
  unfold widgets_in_range. cbn.
  repeat split; try lra; tauto.
Defined.

(** ** The timebase *)

Lemma set_last_length y v : length (set_last y v) = length y.
Proof.
  induction y as [|x [|x' y'] IH]; simpl in *; auto.
Qed.

Lemma set_last_nth y v d i :
  (i < length y)%nat ->
  nth i (set_last y v) d = if (i =? length y - 1)%nat then v else nth i y d.
Proof.
  revert i; induction y as [|x y IH]; intros i Hi; [simpl in Hi; lia|].
  destruct y as [|x' y'].
  - simpl in Hi. assert (i = 0%nat) as -> by lia. reflexivity.
  - change (set_last (x :: x' :: y') v) with (x :: set_last (x' :: y') v).
    destruct i as [|i]; [reflexivity|].
    cbn [nth]. rewrite IH by (simpl in *; lia).
    replace (length (x :: x' :: y') - 1)%nat
      with (S (length (x' :: y') - 1)) by (simpl; lia).
    reflexivity.
Qed.

Lemma linspace_length start stop num : length (linspace start stop num) = num.
Proof.
  unfold linspace, Numpy.plus_r, Numpy.times.
  destruct (1 <? num)%nat; rewrite ?set_last_length;
    destruct (0 <? num - 1)%nat; try destruct (Req_dec_T _ _);
    now rewrite !length_map, length_seq.
Qed.

Lemma nth_map_seq (h : nat -> R) n i :
  (i < n)%nat -> nth i (map h (seq 0 n)) 0 = h i.
Proof.
  intros Hi.
  rewrite (nth_indep _ 0 (h 0%nat)) by now rewrite length_map, length_seq.
  rewrite map_nth, seq_nth by assumption. reflexivity.
Qed.

Lemma linspace_nth start stop num i :
  (2 <= num)%nat -> (i < num)%nat ->
  nth i (linspace start stop num) 0 =
  start + INR i * ((stop - start) / INR (num - 1)).
Proof.
  intros Hn Hi.
  assert (Hdiv : 0 < INR (num - 1)) by (apply lt_0_INR; lia).
  unfold linspace.
  replace (1 <? num)%nat with true by (symmetry; apply Nat.ltb_lt; lia).
  replace (0 <? num - 1)%nat with true by (symmetry; apply Nat.ltb_lt; lia).
  rewrite set_last_nth.
  2:{ destruct (Req_dec_T _ _); unfold Numpy.plus_r, Numpy.times;
      now rewrite !length_map, length_seq. }
  assert (Hl : forall y, length (Numpy.plus_r y start) = length y)
    by (intros; apply length_map).
  destruct (i =? _)%nat eqn:Ei.
  - apply Nat.eqb_eq in Ei.
    assert (i = (num - 1)%nat) as ->.
    { rewrite Ei. destruct (Req_dec_T _ _); unfold Numpy.plus_r, Numpy.times;
        now rewrite !length_map, length_seq. }
    field. lra.
  - destruct (Req_dec_T ((stop - start) / INR (num - 1)) 0) as [Hz|Hnz];
      unfold Numpy.plus_r, Numpy.times; rewrite !map_map.
    + rewrite (nth_map_seq
                 (fun x => INR x / INR (num - 1) * (stop - start) + start))
        by assumption.
      field. lra.
    + rewrite (nth_map_seq
                 (fun x => INR x * ((stop - start) / INR (num - 1)) + start))
        by assumption.
      ring.
Qed.

(** X21.  The timebase of [main] has 10000 instants, evenly spaced from
    0 to 10: instant number [i] is [i * 10/9999]. *)
Theorem main_timebase_evenly_spaced :
  forall (i : nat),
    (i < 10000)%nat ->
    length main_timebase = 10000%nat /\
    nth i main_timebase 0 = INR i * (10 / 9999).
Proof.
  intros i Hi. unfold main_timebase. split; [apply linspace_length|].
  rewrite linspace_nth; [|apply Nat.leb_le; vm_compute; reflexivity|exact Hi].
  replace (INR (10000 - 1)) with 9999.
  - lra.
  - rewrite INR_IZR_INZ. f_equal.
Qed.

Lemma main_timebase_evenly_spaced_witness :
  length main_timebase = 10000%nat /\
  nth 9999 main_timebase 0 = INR 9999 * (10 / 9999).
Proof.
  apply (main_timebase_evenly_spaced 9999).
  apply Nat.ltb_lt. vm_compute. reflexivity.
Defined.

(** ** The evaluation pass *)

Lemma main_loop_total t msg fc :
  length msg = length t -> (2 <= length t)%nat ->
  forall chs i signals names visible g,
  exists sigs,
    main_loop t msg fc i chs signals names visible g =
      (Ok (signals ++ sigs,
           names ++ map (fun p => channel_name (fst p) (signal_type (snd p)))
                        (combine (seq i (length chs)) chs),
           visible ++ map enabled chs), g) /\
    Forall2 (fun ch w => channel_signal t msg fc ch g = (Ok w, g) /\
                         length w = length t) chs sigs.
Proof.
  intros Hlen Ht chs.
  induction chs as [|ch rest IH]; intros i signals names visible g.
  - exists []. cbn. rewrite !app_nil_r. split; [reflexivity|constructor].
  - destruct (channel_signal_total t msg fc ch g Hlen Ht) as (w & Hw & Hwl).
    cbn [main_loop]. rewrite Hw.
    destruct (IH (S i) (signals ++ [w])
                 (names ++ [channel_name i (signal_type ch)])
                 (visible ++ [enabled ch]) g) as (sigs & Hs & Hall).
    exists (w :: sigs). rewrite Hs. split.
    + cbn [length seq combine map fst snd]. now rewrite <- !app_assoc.
    + constructor; auto.
Qed.

Lemma main_signals_total t fc chs g :
  (2 <= length t)%nat ->
  exists signals,
    main_signals t fc chs g =
      (Ok (signals,
           map (fun p => channel_name (fst p) (signal_type (snd p)))
               (combine (seq 0 (length chs)) chs),
           map enabled chs), g) /\
    Forall2 (fun ch w =>
               channel_signal t (map (fun ti => 1.0 * sin (2 * PI * 1.0 * ti)
                                                + 0.0) t)
                              fc ch g = (Ok w, g) /\
               length w = length t) chs signals.
Proof.
  intros Ht. unfold main_signals.
  rewrite generate_sine, generate_carrier.
  destruct (main_loop_total t
              (map (fun ti => 1.0 * sin (2 * PI * 1.0 * ti) + 0.0) t) fc
              (length_map _ t) Ht chs 0%nat [] [] [] g)
    as (sigs & Hs & Hall).
  exists sigs. split; [exact Hs | exact Hall].
Qed.

(** X22.  The evaluation pass of [main] raises nothing, whatever the
    widgets returned and however many channels there are: on the
    timebase of [main] every channel gets a waveform of 10000 samples
    (the one [channel_signal] computes for it against the 1 Hz unit
    sine), the names are "CH1: type", "CH2: type", ... in channel order,
    the visibility flags are the channels' enable flags, and the random
    generator is left as it was. *)
Theorem main_pass_never_raises :
  forall (fc : R) (chs : list channel) (g : rng),
    exists signals,
      main_signals main_timebase fc chs g =
        (Ok (signals,
             map (fun p => channel_name (fst p) (signal_type (snd p)))
                 (combine (seq 0 (length chs)) chs),
             map enabled chs), g) /\
      Forall2 (fun ch w =>
                 channel_signal
                   main_timebase
                   (map (fun ti => 1.0 * sin (2 * PI * 1.0 * ti) + 0.0)
                        main_timebase)
                   fc ch g = (Ok w, g) /\
                 length w = 10000%nat) chs signals.
Proof.
  intros fc chs g.
  assert (Hl : length main_timebase = 10000%nat) by apply linspace_length.
  destruct (main_signals_total main_timebase fc chs g) as (sigs & Hs & Hall).
  { rewrite Hl. apply Nat.leb_le. vm_compute. reflexivity. }
  exists sigs. split; [exact Hs|].
  eapply Forall2_impl; [|exact Hall]. cbv beta. intros ch w [H1 H2].
  split; [exact H1 | congruence].
Qed.

Lemma channel_name_example :
  channel_name 0 "AM Modulated" = "CH1: AM Modulated"%string /\
  channel_name 11 "Clock Pulse" = "CH12: Clock Pulse"%string.
Proof. split; reflexivity. Qed.

(** ** Plot *)

Lemma plot_signals_spec t signals cs names visible :
  length signals = length names ->
  length names = length visible ->
  (length visible <= length cs)%nat ->
  map trace_name (plot_signals t signals cs names visible) =
    map fst (filter snd (combine names visible)) /\
  map trace_y (plot_signals t signals cs names visible) =
    map fst (filter snd (combine signals visible)) /\
  map trace_color (plot_signals t signals cs names visible) =
    map fst (filter snd (combine cs visible)) /\
  Forall (fun tr => trace_x tr = t)
         (plot_signals t signals cs names visible).
Proof.
  revert cs names visible.
  induction signals as [|s ss IH]; intros cs names visible H1 H2 H3.
  - destruct names; [|discriminate]. destruct visible; [|discriminate].
    destruct cs; cbn; repeat split; constructor.
  - destruct names as [|n ns]; [discriminate|].
    destruct visible as [|v vs]; [discriminate|].
    destruct cs as [|c cs]; [simpl in H3; lia|].
    simpl in H1, H2, H3.
    destruct (IH cs ns vs) as (Hn & Hy & Hc & Hx); try lia.
    cbn [plot_signals combine filter snd].
    destruct v; cbn [map fst trace_name trace_y trace_color];
      rewrite ?Hn, ?Hy, ?Hc; repeat split; auto.
Qed.

(** X23.  [plot_signals] draws exactly the visible channels, in channel
    order, each against the timebase, with its own name, waveform and
    colour: a hidden channel leaves no trace and does not shift the
    colours of the others (given as many names and flags as signals,
    and at least as many colours). *)
Theorem plot_signals_draws_visible :
  forall (t : Waveform) (signals : list Waveform) (cs names : list string)
         (visible : list bool),
    length signals = length names ->
    length names = length visible ->
    (length visible <= length cs)%nat ->
    map trace_name (plot_signals t signals cs names visible) =
      map fst (filter snd (combine names visible)) /\
    map trace_y (plot_signals t signals cs names visible) =
      map fst (filter snd (combine signals visible)) /\
    map trace_color (plot_signals t signals cs names visible) =
      map fst (filter snd (combine cs visible)) /\
    Forall (fun tr => trace_x tr = t)
           (plot_signals t signals cs names visible).
Proof. intros. now apply plot_signals_spec. Qed.

Lemma plot_signals_draws_visible_witness :
  map trace_name
      (plot_signals [0; 1] [[1; 2]; [3; 4]; [5; 6]] colors
                    ["CH1: a"; "CH2: b"; "CH3: c"]%string
                    [true; false; true]) =
    ["CH1: a"; "CH3: c"]%string /\
  map trace_y
      (plot_signals [0; 1] [[1; 2]; [3; 4]; [5; 6]] colors
                    ["CH1: a"; "CH2: b"; "CH3: c"]%string
                    [true; false; true]) =
    [[1; 2]; [5; 6]] /\
  map trace_color
      (plot_signals [0; 1] [[1; 2]; [3; 4]; [5; 6]] colors
                    ["CH1: a"; "CH2: b"; "CH3: c"]%string
                    [true; false; true]) =
    ["yellow"; "magenta"]%string /\
  Forall (fun tr => trace_x tr = [0; 1])
         (plot_signals [0; 1] [[1; 2]; [3; 4]; [5; 6]] colors
                       ["CH1: a"; "CH2: b"; "CH3: c"]%string
                       [true; false; true]).
Proof.
  apply (plot_signals_draws_visible
           [0; 1] [[1; 2]; [3; 4]; [5; 6]] colors
           ["CH1: a"; "CH2: b"; "CH3: c"]%string [true; false; true]);
    simpl; try reflexivity; lia.
Defined.

(** X24.  More than three channels cannot all be drawn: [plot_signals]
    stops at the end of the shortest of its lists, so with the three
    colours of [main] it never returns more than three traces. *)
Theorem plot_signals_at_most_three :
  forall (t : Waveform) (signals : list Waveform) (names : list string)
         (visible : list bool),
    (length (plot_signals t signals colors names visible) <= 3)%nat.
Proof.
  intros t signals names visible.
  assert (H : forall cs ss ns vs,
             (length (plot_signals t ss cs ns vs) <= length cs)%nat).
  { induction cs as [|c cs IH]; intros ss ns vs.
    - destruct ss, ns, vs; simpl; lia.
    - destruct ss as [|s ss], ns as [|n ns], vs as [|v vs];
        cbn [plot_signals length]; try lia.
      specialize (IH ss ns vs). destruct v; cbn [length]; lia. }
  apply (H colors).
Qed.

(** ** Demodulated channels of the digital schemes *)

(** X25.  An "ASK Demodulated", "PSK Demodulated" or "FSK Demodulated"
    channel shows two levels only: every sample of the displayed
    waveform is [offset] or [amplitude + offset] (the boolean result of
    the ASK branch becomes a number here, in [amplitude * signal +
    offset]). *)
Theorem digital_demodulated_channel_two_levels :
  forall (s : string) (t msg w : Waveform) (fc : R) (e : bool)
         (a f o k : R) (g g' : rng),
    s = "ASK"%string \/ s = "PSK"%string \/ s = "FSK"%string ->
    channel_signal t msg fc (mkChannel e (s ++ " Demodulated") a f o k) g =
      (Ok w, g') ->
    Forall (fun y => y = o \/ y = a + o) w.
Proof.
  intros s t msg w fc e a f o k g g' Hs.
  assert (Hsch : is_scheme s = true)
    by (destruct Hs as [-> | [-> | ->]]; reflexivity).
  rewrite (proj2 (menu_dispatch s t msg fc e a f o k g Hsch)).
  destruct (modulate_signal fc msg t s k) as [m|]; cbn [bind];
    [|discriminate].
  destruct (demodulate_signal m s) as [d|] eqn:Ed; cbn [bind];
    [|discriminate].
  intros [= <- _].
  pose proof (proj2 (demodulate_sample_values m s d Ed) Hs) as Hd.
  unfold affine, Numpy.plus_r, Numpy.scale. rewrite !Forall_map.
  eapply Forall_impl; [|exact Hd]. cbv beta.
  intros y [-> | ->]; [left | right]; ring.
Qed.

Lemma digital_demodulated_channel_two_levels_witness :
  Forall (fun y => y = 0.5 \/ y = 2 + 0.5)
         (affine 2 (BoolArr (Numpy.greater
                               [sin (2 * PI * 10 * 0) * (1 * 0.5 + 0.5)]
                               0.1)) 0.5).
Proof.
  apply (digital_demodulated_channel_two_levels
           "ASK" [0] [1] _ 10 true 2 1 0.5 1
           (mkRng (fun _ => 0) 0) (mkRng (fun _ => 0) 0)).
  - left; reflexivity.
  - change (channel_signal [0] [1] 10
              (mkChannel true ("ASK" ++ " Demodulated") 2 1 0.5 1)
              (mkRng (fun _ => 0) 0))
      with (w <- modulate_signal 10 [1] [0] "ASK" 1 ;;
            d <- demodulate_signal w "ASK" ;; Ok (affine 2 d 0.5),
            mkRng (fun _ => 0) 0).
    assert (E : modulate_signal 10 [1] [0] "ASK" 1 =
                Ok [sin (2 * PI * 10 * 0) * (1 * 0.5 + 0.5)]).
    { change (modulate_signal 10 [1] [0] "ASK" 1)
        with (Ok [sin (2 * PI * 10 * 0) * (bool_to_R (gt_b 1 0) * 0.5 + 0.5)]).
      unfold gt_b. destruct (Rlt_dec 0 1); [reflexivity | exfalso; lra]. }
    rewrite E. reflexivity.
Defined.

Section ZipWithMaps.

Context {A B A' B' C D : Type}.

Lemma zip_with_map (f : A' -> B' -> C) (h : A -> A') (h' : B -> B')
      (xs : list A) (ys : list B) :
  Numpy.zip_with f (map h xs) (map h' ys) =
  Numpy.zip_with (fun x y => f (h x) (h' y)) xs ys.
Proof.
  revert ys; induction xs as [|x xs IH]; intros [|y ys]; simpl; auto.
  now rewrite IH.
Qed.

Lemma map_zip_with (f : A -> B -> C) (h : C -> D)
      (xs : list A) (ys : list B) :
  map h (Numpy.zip_with f xs ys) =
  Numpy.zip_with (fun x y => h (f x y)) xs ys.
Proof.
  revert ys; induction xs as [|x xs IH]; intros [|y ys]; simpl; auto.
  now rewrite IH.
Qed.

Lemma zip_with_pair_maps (h : A -> B) (h' : A -> C) (xs : list A) :
  Numpy.zip_with pair (map h xs) (map h' xs) = map (fun x => (h x, h' x)) xs.
Proof. induction xs as [|x xs IH]; simpl; auto. now rewrite IH. Qed.

End ZipWithMaps.

(** ** FM, PM and FSK over float64 values *)



















(** ** Every formula, for all parameter values *)


Lemma item_nth (t : Waveform) (i : nat) :
  (i < length t)%nat -> Numpy.item t i = Ok (nth i t 0).
Proof.
  intros Hi. unfold Numpy.item.
  rewrite (nth_error_nth' t 0 Hi). reflexivity.
Qed.

Lemma modulate_am_formula fc msg t k :
  length msg = length t ->
  modulate_signal fc msg t "AM" k =
  Ok (Numpy.zip_with (fun m ti => (1 + k * m) * sin (2 * PI * fc * ti))
                     msg t).
Proof.
  intros Hlen.
  change (modulate_signal fc msg t "AM" k)
    with (Numpy.broadcast2 Rmult
            (Numpy.plus_l 1 (Numpy.scale k msg))
            (Numpy.sin (Numpy.scale (2 * PI * fc) t))).
  rewrite broadcast2_same_length
    by (unfold Numpy.plus_l, Numpy.scale, Numpy.sin; now rewrite !length_map).
  unfold Numpy.plus_l, Numpy.scale, Numpy.sin.
  now rewrite !map_map, zip_with_map.
Qed.

Lemma modulate_fm_formula fc msg t k :
  length msg = length t -> (2 <= length t)%nat ->
  modulate_signal fc msg t "FM" k =
  Ok (Numpy.zip_with
        (fun ti c =>
           sin (2 * PI * fc * ti + k * (c * (nth 1 t 0 - nth 0 t 0))))
        t (Numpy.cumsum msg)).
Proof.
  intros Hlen Ht.
  change (modulate_signal fc msg t "FM" k)
    with (t1 <- Numpy.item t 1 ;;
          t0 <- Numpy.item t 0 ;;
          phase <- Numpy.broadcast2 Rplus
                     (Numpy.scale (2 * PI * fc) t)
                     (Numpy.scale k
                        (Numpy.times (Numpy.cumsum msg) (t1 - t0))) ;;
          Ok (Numpy.sin phase)).
  rewrite !item_nth by lia. cbn [bind].
  rewrite broadcast2_same_length
    by (unfold Numpy.scale, Numpy.times, Numpy.cumsum;
        now rewrite !length_map, cumsum_from_length).
  cbn [bind]. unfold Numpy.scale, Numpy.times, Numpy.sin.
  now rewrite !map_map, zip_with_map, map_zip_with.
Qed.

Lemma modulate_pm_formula fc msg t k :
  length msg = length t ->
  modulate_signal fc msg t "PM" k =
  Ok (Numpy.zip_with (fun ti m => sin (2 * PI * fc * ti + k * m)) t msg).
Proof.
  intros Hlen.
  change (modulate_signal fc msg t "PM" k)
    with (phase <- Numpy.broadcast2 Rplus
                     (Numpy.scale (2 * PI * fc) t)
                     (Numpy.scale k msg) ;;
          Ok (Numpy.sin phase)).
  rewrite broadcast2_same_length
    by (unfold Numpy.scale; now rewrite !length_map).
  cbn [bind]. unfold Numpy.scale, Numpy.sin.
  now rewrite zip_with_map, map_zip_with.
Qed.

Lemma modulate_ask_formula fc msg t k :
  length msg = length t ->
  modulate_signal fc msg t "ASK" k =
  Ok (Numpy.zip_with
        (fun ti m =>
           sin (2 * PI * fc * ti) * (bool_to_R (gt_b m 0) * 0.5 + 0.5))
        t msg).
Proof.
  intros Hlen.
  change (modulate_signal fc msg t "ASK" k)
    with (Numpy.broadcast2 Rmult
            (Numpy.sin (Numpy.scale (2 * PI * fc) t))
            (Numpy.plus_r
               (Numpy.times (Numpy.astype_float (Numpy.greater msg 0)) 0.5)
               0.5)).
  rewrite broadcast2_same_length
    by (unfold Numpy.plus_r, Numpy.times, Numpy.astype_float, Numpy.greater,
          Numpy.scale, Numpy.sin; now rewrite !length_map).
  unfold Numpy.plus_r, Numpy.times, Numpy.astype_float, Numpy.greater,
    Numpy.scale, Numpy.sin.
  now rewrite !map_map, zip_with_map.
Qed.

Lemma modulate_fsk_formula fc msg t k :
  length msg = length t ->
  modulate_signal fc msg t "FSK" k =
  Ok (Numpy.zip_with
        (fun m ti => if gt_b m 0
                     then sin (2 * PI * fc * 1.5 * ti)
                     else sin (2 * PI * fc * ti))
        msg t).
Proof.
  intros Hlen.
  change (modulate_signal fc msg t "FSK" k)
    with (Numpy.where_ (Numpy.greater msg 0)
            (Numpy.sin (Numpy.scale (2 * PI * fc * 1.5) t))
            (Numpy.sin (Numpy.scale (2 * PI * fc) t))).
  unfold Numpy.where_, Numpy.sin, Numpy.scale, Numpy.greater.
  rewrite !map_map.
  rewrite broadcast2_same_length by now rewrite !length_map.
  cbn [bind]. rewrite zip_with_pair_maps.
  rewrite broadcast2_same_length by now rewrite !length_map.
  now rewrite zip_with_map.
Qed.

Lemma modulate_psk_formula fc msg t k :
  length msg = length t ->
  modulate_signal fc msg t "PSK" k =
  Ok (Numpy.zip_with (fun ti m => sin (2 * PI * fc * ti) * Numpy.sign1 m)
                     t msg).
Proof.
  intros Hlen.
  change (modulate_signal fc msg t "PSK" k)
    with (Numpy.broadcast2 Rmult
            (Numpy.sin (Numpy.scale (2 * PI * fc) t)) (Numpy.sign msg)).
  rewrite broadcast2_same_length
    by (unfold Numpy.sign, Numpy.scale, Numpy.sin; now rewrite !length_map).
  unfold Numpy.sign, Numpy.scale, Numpy.sin.
  now rewrite !map_map, zip_with_map.
Qed.

(** C1, as the code has it.  Neither function checks its parameters: for
    every real amplitude, frequency, offset, carrier frequency and
    modulation index (zero and negative ones included) every kind of
    [generate_signal] and every scheme of [modulate_signal] returns its
    formula evaluated as it stands, sample by sample; for
    [modulate_signal] on a message with one sample per instant of a
    timebase of at least two instants. *)
Theorem parameters_are_not_validated :
  forall (t msg : Waveform) (a f o fc k : R) (g : rng),
    length msg = length t ->
    (2 <= length t)%nat ->
    generate_signal "Sine Wave" t a f o g =
      (map (fun ti => a * sin (2 * PI * f * ti) + o) t, g) /\
    generate_signal "Square Wave" t a f o g =
      (map (fun ti => a * Scipy.square1 0.5 (2 * PI * f * ti) + o) t, g) /\
    generate_signal "Triangle Wave" t a f o g =
      (map (fun ti => a * Scipy.sawtooth1 0.5 (2 * PI * f * ti) + o) t, g) /\
    generate_signal "Clock Pulse" t a f o g =
      (map (fun ti => a * Scipy.square1 0.5 (2 * PI * f * ti) + o) t, g) /\
    generate_signal "Binary Data" t a f o g =
      (map (fun i =>
              a * IZR (if gt_b (tape g (cursor g + i)) 0.5 then 1 else 0) + o)
           (seq 0 (length t)),
       mkRng (tape g) (cursor g + length t)) /\
    generate_signal "Carrier Wave" t a f o g =
      (map (fun ti => a * sin (2 * PI * f * ti) + o) t, g) /\
    modulate_signal fc msg t "AM" k =
      Ok (Numpy.zip_with (fun m ti => (1 + k * m) * sin (2 * PI * fc * ti))
                         msg t) /\
    modulate_signal fc msg t "FM" k =
      Ok (Numpy.zip_with
            (fun ti c =>
               sin (2 * PI * fc * ti + k * (c * (nth 1 t 0 - nth 0 t 0))))
            t (Numpy.cumsum msg)) /\
    modulate_signal fc msg t "PM" k =
      Ok (Numpy.zip_with (fun ti m => sin (2 * PI * fc * ti + k * m)) t msg) /\
    modulate_signal fc msg t "ASK" k =
      Ok (Numpy.zip_with
            (fun ti m =>
               sin (2 * PI * fc * ti) * (bool_to_R (gt_b m 0) * 0.5 + 0.5))
            t msg) /\
    modulate_signal fc msg t "FSK" k =
      Ok (Numpy.zip_with
            (fun m ti => if gt_b m 0
                         then sin (2 * PI * fc * 1.5 * ti)
                         else sin (2 * PI * fc * ti))
            msg t) /\
    modulate_signal fc msg t "PSK" k =
      Ok (Numpy.zip_with (fun ti m => sin (2 * PI * fc * ti) * Numpy.sign1 m)
                         t msg).
Proof.
  intros t msg a f o fc k g Hlen Ht.
  split; [apply generate_sine|]. split; [apply generate_square|].
  split; [apply generate_triangle|]. split; [apply generate_clock|].
  split; [apply binary_data_eq|]. split; [apply generate_carrier|].
  split; [now apply modulate_am_formula|].
  split; [now apply modulate_fm_formula|].
  split; [now apply modulate_pm_formula|].
  split; [now apply modulate_ask_formula|].
  split; [now apply modulate_fsk_formula|].
  now apply modulate_psk_formula.
Qed.

Lemma parameters_are_not_validated_witness :
  generate_signal "Sine Wave" [0; 1] (-1) (-2) 0 (mkRng (fun _ => 0) 0) =
    ([-1 * sin (2 * PI * -2 * 0) + 0; -1 * sin (2 * PI * -2 * 1) + 0],
     mkRng (fun _ => 0) 0) /\
  modulate_signal (-3) [1; 1] [0; 1] "PM" (-1) =
    Ok [sin (2 * PI * -3 * 0 + -1 * 1); sin (2 * PI * -3 * 1 + -1 * 1)].
Proof.
  pose proof (parameters_are_not_validated
                [0; 1] [1; 1] (-1) (-2) 0 (-3) (-1) (mkRng (fun _ => 0) 0)
                eq_refl (le_n 2)) as H.
  split; [exact (proj1 H)|].
  exact (proj1 (proj2 (proj2 (proj2 (proj2 (proj2 (proj2 (proj2
           (proj2 H))))))))).
Defined.

(** ** The random generator is consulted by "Binary Data" only *)

Lemma channel_signal_pure t msg fc ch g g' :
  fst (channel_signal t msg fc ch g) = fst (channel_signal t msg fc ch g') /\
  snd (channel_signal t msg fc ch g) = g.
Proof.
  unfold channel_signal.
  destruct (contains "Message Signal" (signal_type ch));
    [rewrite !generate_sine; split; reflexivity|].
  destruct (contains "Clock Pulse" (signal_type ch));
    [rewrite !generate_clock; split; reflexivity|].
  destruct (contains "Carrier Wave" (signal_type ch));
    [rewrite !generate_carrier; split; reflexivity|].
  destruct (contains "Modulated" (signal_type ch)); [split; reflexivity|].
  destruct (contains "Demodulated" (signal_type ch)); split; reflexivity.
Qed.

(** C9.  [generate_signal] for every kind other than "Binary Data"
    returns the same waveform whatever the state of the random generator
    is, and leaves that state as it found it.  [modulate_signal] and
    [demodulate_signal] are not handed the generator at all (the source
    calls [np.random] in neither), and where [main] calls them, in the
    evaluation of a channel, the result is the same whatever the state
    of the generator is, and the state is left as it was.  "Binary Data"
    draws [len(t)] fresh numbers from the global generator on every call
    (the generator is not reset and no seed is passed), so that two
    successive calls with the same arguments can return different
    waveforms, as soon as the timebase is not empty and the two levels
    [amplitude*1 + offset] and [amplitude*0 + offset] differ. *)
Theorem deterministic_except_binary_data :
  forall (kind : string) (t msg : Waveform) (a f o fc : R)
         (ch : channel) (g g' : rng),
    kind <> "Binary Data"%string ->
    fst (generate_signal kind t a f o g) =
      fst (generate_signal kind t a f o g') /\
    snd (generate_signal kind t a f o g) = g /\
    fst (channel_signal t msg fc ch g) =
      fst (channel_signal t msg fc ch g') /\
    snd (channel_signal t msg fc ch g) = g /\
    snd (generate_signal "Binary Data" t a f o g) =
      mkRng (tape g) (cursor g + length t) /\
    (t <> [] ->
     a * 1 + o <> a * 0 + o ->
     exists g0,
       fst (generate_signal "Binary Data" t a f o g0) <>
       fst (generate_signal "Binary Data" t a f o
              (snd (generate_signal "Binary Data" t a f o g0)))).
Proof.
  intros kind t msg a f o fc ch g g' Hk.
  destruct (generate_signal_pure kind t a f o g g' Hk) as [H1 H2].
  destruct (channel_signal_pure t msg fc ch g g') as [H3 H4].
  split; [exact H1|]. split; [exact H2|].
  split; [exact H3|]. split; [exact H4|]. split.
  - now rewrite binary_data_eq.
  - intros Ht Ha. exists (ones_then_zeros (length t)).
    apply binary_data_differs; [exact Ht|].
    intros ->. apply Ha. ring.
Qed.

Lemma deterministic_except_binary_data_witness :
  fst (generate_signal "Sine Wave" [0; 1] 1 2 0 (mkRng (fun _ => 0) 0)) =
    fst (generate_signal "Sine Wave" [0; 1] 1 2 0 (mkRng (fun _ => 1) 5)) /\
  snd (generate_signal "Sine Wave" [0; 1] 1 2 0 (mkRng (fun _ => 0) 0)) =
    mkRng (fun _ => 0) 0 /\
  fst (channel_signal [0; 1] [0.5; -0.5] 10
                      (mkChannel true "FM Demodulated" 1 1 0 1)
                      (mkRng (fun _ => 0) 0)) =
    fst (channel_signal [0; 1] [0.5; -0.5] 10
                        (mkChannel true "FM Demodulated" 1 1 0 1)
                        (mkRng (fun _ => 1) 5)) /\
  snd (channel_signal [0; 1] [0.5; -0.5] 10
                      (mkChannel true "FM Demodulated" 1 1 0 1)
                      (mkRng (fun _ => 0) 0)) =
    mkRng (fun _ => 0) 0 /\
  snd (generate_signal "Binary Data" [0; 1] 1 2 0 (mkRng (fun _ => 0) 0)) =
    mkRng (fun _ => 0) 2 /\
  exists g0,
    fst (generate_signal "Binary Data" [0; 1] 1 2 0 g0) <>
    fst (generate_signal "Binary Data" [0; 1] 1 2 0
           (snd (generate_signal "Binary Data" [0; 1] 1 2 0 g0))).
Proof.
  pose proof (deterministic_except_binary_data
                "Sine Wave" [0; 1] [0.5; -0.5] 1 2 0 10
                (mkChannel true "FM Demodulated" 1 1 0 1)
                (mkRng (fun _ => 0) 0) (mkRng (fun _ => 1) 5))
    as H.
  destruct H as (H1 & H2 & H3 & H4 & H5 & H6); [discriminate|].
  repeat (split; [assumption|]).
  apply H6; [discriminate | lra].
Defined.
